(** * instagram_unfollower.storage: the persistence layer of the bot

    A shallow embedding of [src/instagram_unfollower/storage.py].  The two
    mapped classes become records, the database becomes the two tables with
    the counters that hand out primary keys, and the SQLAlchemy session the
    source works through becomes a small state-and-exception monad: every
    call that reaches the engine may raise, [session_scope] is the
    try/except/finally of the source, and the nine public methods are written
    in that monad statement by statement. *)

From stdpp Require Import gmap strings list.

Open Scope Z_scope.

(** ** The mapped classes *)

(** [class Unfollower(Base)], table [unfollowers]. *)
Module Unfollower.
Record t := mk {
  id : Z;
  instagram_author_id : Z;
  telegram_author_id : Z;
  instagram_unfollower_id : Z
}.

(** [Unfollower(telegram_author_id=.., instagram_author_id=..,
    instagram_unfollower_id=..)]: an object that is not stored yet has no
    primary key; it is a row waiting for the key the engine gives it. *)
Definition init (telegram_author_id instagram_author_id
                 instagram_unfollower_id : Z) : Z → t :=
  λ pk, mk pk instagram_author_id telegram_author_id instagram_unfollower_id.
End Unfollower.

(** [class TelegramUser(Base)], table [telegram_users]. *)
Module TelegramUser.
Record t := mk {
  id : Z;
  telegram_id : Z;
  instagram_id : option Z;
  is_notified : bool;
  language : option string
}.

(** [TelegramUser(telegram_id=.., instagram_id=..)]; the columns that are
    not given take their declared defaults ([is_notified] False,
    [language] None, [instagram_id] NULL) when the row is written. *)
Definition init (telegram_id : Z) (instagram_id : option Z) : Z → t :=
  λ pk, mk pk telegram_id instagram_id false None.

Definition set_instagram_id (v : option Z) (r : t) : t :=
  mk (id r) (telegram_id r) v (is_notified r) (language r).
Definition set_is_notified (v : bool) (r : t) : t :=
  mk (id r) (telegram_id r) (instagram_id r) v (language r).
Definition set_language (v : option string) (r : t) : t :=
  mk (id r) (telegram_id r) (instagram_id r) (is_notified r) v.
End TelegramUser.

(** ** The database *)

(** The rows of each table in storage order, and for each table the next
    primary key of its integer [id] column. *)
Record Database := mkDatabase {
  unfollowers : list Unfollower.t;
  unfollowers_next_id : Z;
  telegram_users : list TelegramUser.t;
  telegram_users_next_id : Z
}.

(** What [Base.metadata.create_all] leaves on a new database. *)
Definition empty_database : Database := mkDatabase [] 1 [] 1.

(** ** Exceptions and results *)

Inductive exn :=
| AttributeError
| SQLAlchemyError (code : Z)
| KeyboardInterrupt.

(** [except Exception] takes every exception of the model but
    [KeyboardInterrupt], which derives from [BaseException] only. *)
Definition is_Exception (e : exn) : bool :=
  match e with
  | KeyboardInterrupt => false
  | _ => true
  end.

(** What can happen to a call to the engine: the engine reports a failure,
    which SQLAlchemy raises as a [SQLAlchemyError], or the call is
    interrupted. *)
Inductive fault :=
| Failure (code : Z)
| Interrupted.

Definition exn_of_fault (f : fault) : exn :=
  match f with
  | Failure code => SQLAlchemyError code
  | Interrupted => KeyboardInterrupt
  end.

Inductive result (A : Type) :=
| Ok (a : A)
| Raise (e : exn).
Arguments Ok {A} a.
Arguments Raise {A} e.

(** ** The session *)

Inductive event := Open | Commit | Rollback | Close.

(** [bound] is the committed database the engine holds; [pending] is the
    database as the open transaction sees it; [faults] says, for each coming
    call to the engine, whether it raises; [trace] records the calls that
    open, commit, roll back and close the session. *)
Record Session := mkSession {
  bound : Database;
  pending : Database;
  faults : list (option fault);
  trace : list event
}.

Definition M (A : Type) : Type := Session → result A * Session.

Definition ret {A} (a : A) : M A := λ σ, (Ok a, σ).

Definition raise {A} (e : exn) : M A := λ σ, (Raise e, σ).

Definition bind {A B} (m : M A) (k : A → M B) : M B :=
  λ σ, match m σ with
       | (Ok a, σ') => k a σ'
       | (Raise e, σ') => (Raise e, σ')
       end.

Notation "'let!' x ':=' m 'in' k" := (bind m (λ x, k))
  (at level 10, x name, m at level 100, k at level 200, only parsing).
Notation "m ';;' k" := (bind m (λ _, k))
  (at level 100, k at level 200, right associativity, only parsing).

(** [try: m  except C as e: h e] where [C] is the class [catches] tells. *)
Definition try_except {A} (m : M A) (catches : exn → bool) (h : exn → M A) : M A :=
  λ σ, match m σ with
       | (Ok a, σ') => (Ok a, σ')
       | (Raise e, σ') => if catches e then h e σ' else (Raise e, σ')
       end.

(** [try: m  finally: f]; [f] is a session call that does not raise. *)
Definition try_finally {A} (m : M A) (f : Session → Session) : M A :=
  λ σ, let '(r, σ') := m σ in (r, f σ').

(** One call to the engine: it takes the next entry of [faults]. *)
Definition execute : M unit :=
  λ σ, match faults σ with
       | [] => (Ok (), σ)
       | None :: fs => (Ok (), mkSession (bound σ) (pending σ) fs (trace σ))
       | Some f :: fs =>
           (Raise (exn_of_fault f), mkSession (bound σ) (pending σ) fs (trace σ))
       end.

Definition get_pending : M Database := λ σ, (Ok (pending σ), σ).

Definition set_pending (d : Database) : M unit :=
  λ σ, (Ok (), mkSession (bound σ) d (faults σ) (trace σ)).

Definition log (ev : event) (σ : Session) : Session :=
  mkSession (bound σ) (pending σ) (faults σ) (trace σ ++ [ev]).

(** [Session()]: a new session on the bound engine. *)
Definition Session_new (σ : Session) : Session :=
  log Open (mkSession (bound σ) (bound σ) (faults σ) (trace σ)).

(** [session.commit()]: the flush and the COMMIT are one call to the engine;
    when it succeeds the pending database becomes the committed one. *)
Definition commit : M unit :=
  execute;;
  λ σ, (Ok (), log Commit (mkSession (pending σ) (pending σ) (faults σ) (trace σ))).

(** [session.rollback()]: the pending changes are dropped. *)
Definition rollback : M unit :=
  λ σ, (Ok (), log Rollback (mkSession (bound σ) (bound σ) (faults σ) (trace σ))).

(** [session.close()]: the connection goes back; a transaction still open
    is dropped with it. *)
Definition close (σ : Session) : Session :=
  log Close (mkSession (bound σ) (bound σ) (faults σ) (trace σ)).

(** *** Queries on [Unfollower] *)

(** [session.query(Unfollower).filter_by(..)] is the criterion it selects
    by; [.all()] and [.delete()] send it to the engine. *)
Definition Unfollower_all (P : Unfollower.t → Prop) `{∀ r, Decision (P r)}
    : M (list Unfollower.t) :=
  execute;;
  let! d := get_pending in
  ret (filter P (unfollowers d)).

Definition Unfollower_delete (P : Unfollower.t → Prop) `{∀ r, Decision (P r)}
    : M unit :=
  execute;;
  let! d := get_pending in
  set_pending (mkDatabase (filter (λ r, ¬ P r) (unfollowers d))
                          (unfollowers_next_id d)
                          (telegram_users d) (telegram_users_next_id d)).

(** The engine numbers new rows from the table's counter, in the order they
    are given. *)
Fixpoint assign_ids {R} (next : Z) (objs : list (Z → R)) : list R :=
  match objs with
  | [] => []
  | o :: objs' => o next :: assign_ids (next + 1) objs'
  end.

(** [session.bulk_save_objects(objs)]: the INSERT is sent at once. *)
Definition bulk_save_objects (objs : list (Z → Unfollower.t)) : M unit :=
  execute;;
  let! d := get_pending in
  set_pending (mkDatabase (unfollowers d ++ assign_ids (unfollowers_next_id d) objs)
                          (unfollowers_next_id d + Z.of_nat (length objs))
                          (telegram_users d) (telegram_users_next_id d)).

(** *** Queries on [TelegramUser] *)

(** A loaded [TelegramUser] object is the stored row itself: assigning to an
    attribute of the object changes that row when the session is flushed.
    The object is named here by the place of its row in the table; the
    session names it by the primary key, which is the same row
    ([setattr_by_primary_key] below). *)
Definition TelegramUser_obj : Type := nat * TelegramUser.t.

(** [.first()]: the first row that matches, or None. *)
Definition TelegramUser_first (P : TelegramUser.t → Prop) `{∀ r, Decision (P r)}
    : M (option TelegramUser_obj) :=
  execute;;
  let! d := get_pending in
  ret (list_find P (telegram_users d)).

Definition TelegramUser_all (P : TelegramUser.t → Prop) `{∀ r, Decision (P r)}
    : M (list TelegramUser.t) :=
  execute;;
  let! d := get_pending in
  ret (filter P (telegram_users d)).

(** [session.add(obj)]: the new row is pending from here on; the engine is
    reached only at the flush.  The object returned is the pending row. *)
Definition add (obj : Z → TelegramUser.t) : M TelegramUser_obj :=
  let! d := get_pending in
  let r := obj (telegram_users_next_id d) in
  set_pending (mkDatabase (unfollowers d) (unfollowers_next_id d)
                          (telegram_users d ++ [r])
                          (telegram_users_next_id d + 1));;
  ret (length (telegram_users d), r).

(** [obj.attr = v]: [f] is the setter of the attribute. *)
Definition setattr (obj : TelegramUser_obj) (f : TelegramUser.t → TelegramUser.t)
    : M unit :=
  let! d := get_pending in
  set_pending (mkDatabase (unfollowers d) (unfollowers_next_id d)
                          (alter f (fst obj) (telegram_users d))
                          (telegram_users_next_id d)).

(** [obj.attr] where [obj] may be None: reading an attribute of None raises
    AttributeError. *)
Definition getattr {A} (obj : option TelegramUser_obj) (f : TelegramUser.t → A)
    : M A :=
  match obj with
  | None => raise AttributeError
  | Some o => ret (f (snd o))
  end.

(** ** [UnfollowersStorage] *)

(** [session_scope]: the body of the [with] block runs between [yield] and
    [commit]; a [return] inside the block leaves through the same exit, so
    the commit runs before the value reaches the caller. *)
Definition session_scope {A} (body : M A) : M A :=
  λ σ,
    try_finally
      (try_except
         (let! a := body in
          commit;;
          ret a)
         is_Exception
         (λ e, rollback;; raise e))
      close
      (Session_new σ).

Definition get_known_unfollowers (telegram_id : Z) : M (gset Z) :=
  session_scope (
    let! unfollowers :=
      Unfollower_all (λ r, Unfollower.telegram_author_id r = telegram_id) in
    ret (list_to_set (map Unfollower.instagram_unfollower_id unfollowers))).

Definition update_known_unfollowers (telegram_id instagram_id : Z)
    (unfollower_ids : gset Z) : M unit :=
  session_scope (
    Unfollower_delete (λ r, Unfollower.telegram_author_id r = telegram_id
                            ∧ Unfollower.instagram_author_id r = instagram_id);;
    let unfollowers :=
      map (λ unfollower_id,
             Unfollower.init telegram_id instagram_id unfollower_id)
          (elements unfollower_ids) in
    bulk_save_objects unfollowers).

Definition get_instagram_id (telegram_id : Z) : M (option Z) :=
  session_scope (
    try_except
      (let! tg_user :=
         TelegramUser_first (λ r, TelegramUser.telegram_id r = telegram_id) in
       getattr tg_user TelegramUser.instagram_id)
      (λ e, match e with AttributeError => true | _ => false end)
      (λ _, ret None)).

Definition update_instagram_id (telegram_id instagram_id : Z) : M unit :=
  session_scope (
    let! tg_user :=
      TelegramUser_first (λ r, TelegramUser.telegram_id r = telegram_id) in
    match tg_user with
    | None =>
        add (TelegramUser.init telegram_id (Some instagram_id));;
        ret ()
    | Some tg_user =>
        setattr tg_user (TelegramUser.set_instagram_id (Some instagram_id))
    end).

Definition start_notifying (telegram_id : Z) : M bool :=
  session_scope (
    let! tg_user :=
      TelegramUser_first (λ r, TelegramUser.telegram_id r = telegram_id) in
    match tg_user with
    | None => ret false
    | Some tg_user =>
        setattr tg_user (TelegramUser.set_is_notified true);;
        ret true
    end).

Definition stop_notifying (telegram_id : Z) : M bool :=
  session_scope (
    let! tg_user :=
      TelegramUser_first (λ r, TelegramUser.telegram_id r = telegram_id) in
    match tg_user with
    | None => ret false
    | Some tg_user =>
        setattr tg_user (TelegramUser.set_is_notified false);;
        ret true
    end).

Definition get_notified_telegram_ids : M (gset Z) :=
  session_scope (
    let! users := TelegramUser_all (λ r, TelegramUser.is_notified r = true) in
    ret (list_to_set (map TelegramUser.telegram_id users))).

Definition get_language (telegram_id : Z) : M (option string) :=
  session_scope (
    let! user :=
      TelegramUser_first (λ r, TelegramUser.telegram_id r = telegram_id) in
    match user with
    | Some user => ret (TelegramUser.language (snd user))
    | None => ret None
    end).

Definition set_language (telegram_id : Z) (language : option string) : M unit :=
  session_scope (
    let! user :=
      TelegramUser_first (λ r, TelegramUser.telegram_id r = telegram_id) in
    let! user :=
      match user with
      | None => add (TelegramUser.init telegram_id None)
      | Some user => ret user
      end in
    setattr user (TelegramUser.set_language language)).

(** ** Calling the storage *)

(** A call of a public method on the database [d], with the faults the
    engine will have: the result, the database afterwards and the session
    calls that were made. *)
Definition call {A} (m : M A) (d : Database) (fs : list (option fault))
    : result A * Database * list event :=
  let '(r, σ) := m (mkSession d d fs []) in (r, bound σ, trace σ).

(** The same when the engine does not fail. *)
Definition run {A} (m : M A) (d : Database) : result A * Database :=
  let '(r, d', _) := call m d [] in (r, d').

Definition returned {A} (m : M A) (d : Database) : result A := (run m d).1.

Definition db_after {A} (m : M A) (d : Database) : Database := (run m d).2.

(** ** The public operations as data *)

Inductive operation :=
| GetKnownUnfollowers (telegram_id : Z)
| UpdateKnownUnfollowers (telegram_id instagram_id : Z) (unfollower_ids : gset Z)
| GetInstagramId (telegram_id : Z)
| UpdateInstagramId (telegram_id instagram_id : Z)
| StartNotifying (telegram_id : Z)
| StopNotifying (telegram_id : Z)
| GetNotifiedTelegramIds
| GetLanguage (telegram_id : Z)
| SetLanguage (telegram_id : Z) (language : option string).

(** What a caller can tell of a call apart from its value: the exception
    that reached it, if any, the database and the session calls. *)
Definition outcome {A} (x : result A * Database * list event)
    : option exn * Database * list event :=
  let '(r, d, tr) := x in
  (match r with Ok _ => None | Raise e => Some e end, d, tr).

Definition perform (o : operation) (d : Database) (fs : list (option fault))
    : option exn * Database * list event :=
  match o with
  | GetKnownUnfollowers u => outcome (call (get_known_unfollowers u) d fs)
  | UpdateKnownUnfollowers u a ids => outcome (call (update_known_unfollowers u a ids) d fs)
  | GetInstagramId u => outcome (call (get_instagram_id u) d fs)
  | UpdateInstagramId u a => outcome (call (update_instagram_id u a) d fs)
  | StartNotifying u => outcome (call (start_notifying u) d fs)
  | StopNotifying u => outcome (call (stop_notifying u) d fs)
  | GetNotifiedTelegramIds => outcome (call get_notified_telegram_ids d fs)
  | GetLanguage u => outcome (call (get_language u) d fs)
  | SetLanguage u l => outcome (call (set_language u l) d fs)
  end.

(** A history: the operations called one after the other, each with the
    faults the engine has during it. *)
Definition history : Type := list (operation * list (option fault)).

Fixpoint replay (h : history) (d : Database) : Database :=
  match h with
  | [] => d
  | (o, fs) :: h' => replay h' (perform o d fs).1.2
  end.

(** The calls to the engine an operation makes when none of them fails:
    its queries and the commit. *)
Definition engine_calls (o : operation) : nat :=
  match o with
  | UpdateKnownUnfollowers _ _ _ => 3%nat
  | _ => 2%nat
  end.

(** The first fault that is due among the coming calls. *)
Fixpoint first_fault (fs : list (option fault)) : option fault :=
  match fs with
  | [] => None
  | Some f :: _ => Some f
  | None :: fs' => first_fault fs'
  end.

(** ** Predicates on the database *)

(** The rows of the pair (requesting user, monitored account). *)
Definition of_pair (u a : Z) (r : Unfollower.t) : Prop :=
  Unfollower.telegram_author_id r = u ∧ Unfollower.instagram_author_id r = a.

Definition has_settings (u : Z) (d : Database) : Prop :=
  ∃ r, r ∈ telegram_users d ∧ TelegramUser.telegram_id r = u.

Definition no_settings (u : Z) (d : Database) : Prop :=
  Forall (λ r, TelegramUser.telegram_id r ≠ u) (telegram_users d).

(** At most one settings row for each requesting user. *)
Definition unique_settings (d : Database) : Prop :=
  NoDup (map TelegramUser.telegram_id (telegram_users d)).

(** [d'] is [d] with [f] applied to the first settings row of [u], and
    nothing else changed. *)
Definition first_row_updated (u : Z) (f : TelegramUser.t → TelegramUser.t)
    (d d' : Database) : Prop :=
  ∃ l1 r l2,
    telegram_users d = l1 ++ r :: l2 ∧
    Forall (λ x, TelegramUser.telegram_id x ≠ u) l1 ∧
    TelegramUser.telegram_id r = u ∧
    d' = mkDatabase (unfollowers d) (unfollowers_next_id d)
                    (l1 ++ f r :: l2) (telegram_users_next_id d).

(** [d'] is [d] with the row [r] put after the settings rows, under the
    next primary key. *)
Definition row_appended (r : Z → TelegramUser.t) (d d' : Database) : Prop :=
  d' = mkDatabase (unfollowers d) (unfollowers_next_id d)
                  (telegram_users d ++ [r (telegram_users_next_id d)])
                  (telegram_users_next_id d + 1).

(** The stored data as the data model has it, without the primary keys the
    engine gives the rows. *)
Definition UnfollowerRecord (r : Unfollower.t) : Z * Z * Z :=
  (Unfollower.telegram_author_id r, Unfollower.instagram_author_id r,
   Unfollower.instagram_unfollower_id r).

Definition UserSettings (r : TelegramUser.t) : Z * option Z * bool * option string :=
  (TelegramUser.telegram_id r, TelegramUser.instagram_id r,
   TelegramUser.is_notified r, TelegramUser.language r).

Definition stored (d : Database)
    : list (Z * Z * Z) * list (Z * option Z * bool * option string) :=
  (map UnfollowerRecord (unfollowers d), map UserSettings (telegram_users d)).

(** The setters of the three columns keep the owner of the row. *)
Definition keeps_owner (f : TelegramUser.t → TelegramUser.t) : Prop :=
  ∀ r, TelegramUser.telegram_id (f r) = TelegramUser.telegram_id r.

(** The users that own the settings rows, in storage order. *)
Definition owners (d : Database) : list Z :=
  map TelegramUser.telegram_id (telegram_users d).

(** The two operations that create a settings row of [u]. *)
Definition creates_settings (u : Z) (o : operation) : Prop :=
  match o with
  | UpdateInstagramId u' _ | SetLanguage u' _ => u' = u
  | _ => False
  end.

(** The setters keep the primary key of the row too. *)
Definition keeps_key (f : TelegramUser.t → TelegramUser.t) : Prop :=
  ∀ r, TelegramUser.id (f r) = TelegramUser.id r.

(** What a call that went through does to the settings table: nothing, an
    update of the first row of a user, or a new row for a user that had
    none. *)
Inductive settings_step (o : operation) (d d' : Database) : Prop :=
| settings_kept :
    telegram_users d' = telegram_users d →
    telegram_users_next_id d' = telegram_users_next_id d →
    settings_step o d d'
| settings_updated u f :
    keeps_owner f → keeps_key f → first_row_updated u f d d' →
    settings_step o d d'
| settings_created u r :
    creates_settings u o → ¬ has_settings u d →
    (∀ pk, TelegramUser.telegram_id (r pk) = u) →
    (∀ pk, TelegramUser.id (r pk) = pk) →
    row_appended r d d' →
    settings_step o d d'.

(** The primary keys of the settings rows are distinct and below the
    counter of the table. *)
Definition primary_keys_fresh (d : Database) : Prop :=
  NoDup (map TelegramUser.id (telegram_users d)) ∧
  Forall (λ r, TelegramUser.id r < telegram_users_next_id d) (telegram_users d).

(** [UPDATE telegram_users SET .. WHERE id = pk], the statement a flush sends
    for a changed object. *)
Definition update_where_id (pk : Z) (f : TelegramUser.t → TelegramUser.t)
    (rows : list TelegramUser.t) : list TelegramUser.t :=
  map (λ r, if decide (TelegramUser.id r = pk) then f r else r) rows.

(** ** A database with three users *)

(** User 2 has a linked account, notifications on and a language, between
    the rows of users 1 and 3. *)
Definition three_users : Database :=
  db_after (set_language 2 (Some "de"%string))
    (db_after (start_notifying 2)
       (db_after (update_instagram_id 3 30)
          (db_after (update_instagram_id 2 20)
             (db_after (update_instagram_id 1 10)
                (db_after (update_known_unfollowers 2 20 {[5; 6]})
                   empty_database))))).

(** ** The storage as a caller sees it *)

(** The columns a caller can set and read: linked account, notification
    flag, language. *)
Definition settings : Type := option Z * bool * option string.

Definition columns (r : TelegramUser.t) : settings :=
  (TelegramUser.instagram_id r, TelegramUser.is_notified r, TelegramUser.language r).

(** The settings of [u]: the columns of the row [.first()] finds. *)
Definition settings_of (u : Z) (d : Database) : option settings :=
  (λ o : nat * TelegramUser.t, columns o.2) <$>
    list_find (λ r, TelegramUser.telegram_id r = u) (telegram_users d).

(** The known unfollowers of the pair [(u, a)]. *)
Definition snapshot (u a : Z) (d : Database) : gset Z :=
  list_to_set (map Unfollower.instagram_unfollower_id
                 (filter (of_pair u a) (unfollowers d))).

(** No call to the engine fails during the operation. *)
Definition went_through (o : operation) (fs : list (option fault)) : bool :=
  bool_decide (first_fault (take (engine_calls o) fs) = None).

(** What an operation does to the settings of [u], told without the table:
    the two row-creating writers set their column and give the other
    columns their defaults where [u] had no settings; the switches set the
    flag where [u] has settings; nothing else changes them. *)
Definition model_settings (u : Z) (o : operation) (s : option settings)
    : option settings :=
  match o with
  | UpdateInstagramId u' a =>
      if decide (u' = u)
      then Some (match s with
                 | Some (_, n, l) => (Some a, n, l)
                 | None => (Some a, false, None)
                 end)
      else s
  | StartNotifying u' =>
      if decide (u' = u) then (λ c : settings, (c.1.1, true, c.2)) <$> s else s
  | StopNotifying u' =>
      if decide (u' = u) then (λ c : settings, (c.1.1, false, c.2)) <$> s else s
  | SetLanguage u' l' =>
      if decide (u' = u)
      then Some (match s with
                 | Some (i, n, _) => (i, n, l')
                 | None => (None, false, l')
                 end)
      else s
  | _ => s
  end.

(** What an operation does to the known unfollowers of the pair [(u, a)]. *)
Definition model_snapshot (u a : Z) (o : operation) (K : gset Z) : gset Z :=
  match o with
  | UpdateKnownUnfollowers u' a' ids =>
      if decide (u' = u ∧ a' = a) then ids else K
  | _ => K
  end.

(** A history told on such a view: the operations that went through act
    in turn, the others do nothing. *)
Fixpoint model_replay {V} (step : operation → V → V) (h : history) (v : V) : V :=
  match h with
  | [] => v
  | (o, fs) :: h' =>
      model_replay step h' (if went_through o fs then step o v else v)
  end.

(** What a call returns under the faults [fs], given what it returns when
    the engine does not fail: the exception of the first fault among the
    calls to the engine the operation makes, or that value. *)
Definition value_or_fault {A} (o : operation) (fs : list (option fault))
    (v : result A) : result A :=
  match first_fault (take (engine_calls o) fs) with
  | None => v
  | Some f => Raise (exn_of_fault f)
  end.

(** The operations that write each table. *)
Definition writes_unfollowers (o : operation) : bool :=
  match o with
  | UpdateKnownUnfollowers _ _ _ => true
  | _ => false
  end.

Definition writes_settings (o : operation) : bool :=
  match o with
  | UpdateInstagramId _ _ | StartNotifying _ | StopNotifying _ | SetLanguage _ _ => true
  | _ => false
  end.

(** The database a writer of settings leaves when the engine does not fail:
    [f] applied to the first row of [u], or where [u] has no row the row
    [new], if the writer creates one. *)
Definition write_first (u : Z) (f : TelegramUser.t → TelegramUser.t)
    (new : option (Z → TelegramUser.t)) (d : Database) : Database :=
  match list_find (λ r, TelegramUser.telegram_id r = u) (telegram_users d), new with
  | Some o, _ =>
      mkDatabase (unfollowers d) (unfollowers_next_id d)
                 (alter f o.1 (telegram_users d)) (telegram_users_next_id d)
  | None, Some r =>
      mkDatabase (unfollowers d) (unfollowers_next_id d)
                 (telegram_users d ++ [r (telegram_users_next_id d)])
                 (telegram_users_next_id d + 1)
  | None, None => d
  end.

(** A block that works on the open transaction only: it leaves the
    committed database and the record of the session calls alone. *)
Definition transactional {A} (body : M A) : Prop :=
  ∀ σ, bound (body σ).2 = bound σ ∧ trace (body σ).2 = trace σ.

(** ** The operations when the engine does not fail *)

(** Runs a method down to the session calls it makes. *)
Ltac session_steps :=
  cbv [run call returned db_after perform outcome
       get_known_unfollowers update_known_unfollowers get_instagram_id
       update_instagram_id start_notifying stop_notifying
       get_notified_telegram_ids get_language set_language
       session_scope try_finally try_except bind ret raise execute
       get_pending set_pending log Session_new commit rollback close
       Unfollower_all Unfollower_delete bulk_save_objects
       TelegramUser_first TelegramUser_all add setattr getattr];
  cbn [bound pending faults trace fst snd
       unfollowers unfollowers_next_id telegram_users telegram_users_next_id
       app is_Exception exn_of_fault].

Section FaultFree.
Variable d : Database.

Lemma run_get_known_unfollowers u :
  run (get_known_unfollowers u) d =
    (Ok (list_to_set (map Unfollower.instagram_unfollower_id
           (filter (λ r, Unfollower.telegram_author_id r = u) (unfollowers d)))),
     d).
Proof. reflexivity. Qed.

Lemma run_update_known_unfollowers u a (ids : gset Z) :
  run (update_known_unfollowers u a ids) d =
    (Ok (),
     mkDatabase
       (filter (λ r, ¬ of_pair u a r) (unfollowers d) ++
        assign_ids (unfollowers_next_id d)
          (map (Unfollower.init u a) (elements ids)))
       (unfollowers_next_id d + Z.of_nat (length (elements ids)))
       (telegram_users d) (telegram_users_next_id d)).
Proof. session_steps. by rewrite length_map. Qed.

Lemma run_get_notified_telegram_ids :
  run get_notified_telegram_ids d =
    (Ok (list_to_set (map TelegramUser.telegram_id
           (filter (λ r, TelegramUser.is_notified r = true) (telegram_users d)))),
     d).
Proof. reflexivity. Qed.

Lemma run_get_instagram_id u :
  run (get_instagram_id u) d =
    (Ok (match list_find (λ r, TelegramUser.telegram_id r = u) (telegram_users d) with
         | Some o => TelegramUser.instagram_id o.2
         | None => None
         end), d).
Proof.
  session_steps.
  by destruct (list_find _ (telegram_users d)).
Qed.

Lemma run_get_language u :
  run (get_language u) d =
    (Ok (match list_find (λ r, TelegramUser.telegram_id r = u) (telegram_users d) with
         | Some o => TelegramUser.language o.2
         | None => None
         end), d).
Proof.
  session_steps.
  by destruct (list_find _ (telegram_users d)).
Qed.

Lemma run_update_instagram_id u a :
  run (update_instagram_id u a) d =
    (Ok (),
     match list_find (λ r, TelegramUser.telegram_id r = u) (telegram_users d) with
     | None =>
         mkDatabase (unfollowers d) (unfollowers_next_id d)
           (telegram_users d ++
              [TelegramUser.init u (Some a) (telegram_users_next_id d)])
           (telegram_users_next_id d + 1)
     | Some o =>
         mkDatabase (unfollowers d) (unfollowers_next_id d)
           (alter (TelegramUser.set_instagram_id (Some a)) o.1 (telegram_users d))
           (telegram_users_next_id d)
     end).
Proof.
  session_steps.
  by destruct (list_find _ (telegram_users d)).
Qed.

Lemma run_set_notified (b : bool) u :
  run (if b then start_notifying u else stop_notifying u) d =
    match list_find (λ r, TelegramUser.telegram_id r = u) (telegram_users d) with
    | None => (Ok false, d)
    | Some o =>
        (Ok true,
         mkDatabase (unfollowers d) (unfollowers_next_id d)
           (alter (TelegramUser.set_is_notified b) o.1 (telegram_users d))
           (telegram_users_next_id d))
    end.
Proof.
  destruct b; session_steps;
    by destruct (list_find _ (telegram_users d)).
Qed.

Lemma run_set_language u l :
  run (set_language u l) d =
    (Ok (),
     match list_find (λ r, TelegramUser.telegram_id r = u) (telegram_users d) with
     | None =>
         mkDatabase (unfollowers d) (unfollowers_next_id d)
           (telegram_users d ++
              [TelegramUser.set_language l
                 (TelegramUser.init u None (telegram_users_next_id d))])
           (telegram_users_next_id d + 1)
     | Some o =>
         mkDatabase (unfollowers d) (unfollowers_next_id d)
           (alter (TelegramUser.set_language l) o.1 (telegram_users d))
           (telegram_users_next_id d)
     end).
Proof.
  session_steps.
  destruct (list_find _ (telegram_users d)); session_steps; [done|].
  do 2 f_equal.
  rewrite <-(Nat.add_0_r (length (telegram_users d))).
  by rewrite alter_app_r.
Qed.
End FaultFree.

(** ** Finding the first row *)

Section FirstRow.
Context {A : Type} (P : A → Prop) `{!∀ x, Decision (P x)}.

(** The row [.first()] gives splits the table: no row before it matches. *)
Lemma list_find_split (l : list A) i x :
  list_find P l = Some (i, x) →
  ∃ l1 l2, l = l1 ++ x :: l2 ∧ length l1 = i ∧ Forall (λ y, ¬ P y) l1 ∧ P x.
Proof.
  intros (Hi & HP & Hlt)%list_find_Some.
  exists (take i l), (drop (S i) l). split_and!; [|
    | |done].
  - by rewrite take_drop_middle.
  - apply length_take_le. apply lookup_lt_Some in Hi. lia.
  - apply Forall_lookup. intros j y Hj.
    apply lookup_take_Some in Hj as [Hj ?]. eauto.
Qed.

Lemma list_find_middle (l1 l2 : list A) x :
  Forall (λ y, ¬ P y) l1 → P x →
  list_find P (l1 ++ x :: l2) = Some (length l1, x).
Proof.
  intros H1 HP. apply list_find_Some. split_and!; [|done|].
  - by rewrite list_lookup_middle.
  - intros j y Hj ?. rewrite lookup_app_l in Hj by done.
    exact (Forall_lookup_1 _ _ _ _ H1 Hj).
Qed.

Lemma alter_middle (f : A → A) (l1 l2 : list A) x :
  alter f (length l1) (l1 ++ x :: l2) = l1 ++ f x :: l2.
Proof.
  rewrite <-(Nat.add_0_r (length l1)). by rewrite alter_app_r.
Qed.

Lemma list_find_is_Some_iff (l : list A) :
  is_Some (list_find P l) ↔ ∃ x, x ∈ l ∧ P x.
Proof.
  split.
  - intros [[i x] (Hi & HP & _)%list_find_Some].
    exists x. split; [by eapply list_elem_of_lookup_2|done].
  - intros (x & ? & ?). by eapply list_find_elem_of.
Qed.
End FirstRow.

(** ** New rows of a pair *)

Section NewRows.
Variables u a : Z.

Lemma assign_ids_unfollower_ids next (l : list Z) :
  map Unfollower.instagram_unfollower_id
      (assign_ids next (map (Unfollower.init u a) l)) = l.
Proof.
  revert next. induction l as [|x l IH]; intros next; [done|].
  cbn. by rewrite IH.
Qed.

Lemma assign_ids_records next (l : list Z) :
  map UnfollowerRecord (assign_ids next (map (Unfollower.init u a) l)) =
  map (λ x, (u, a, x)) l.
Proof.
  revert next. induction l as [|x l IH]; intros next; [done|].
  cbn. by rewrite IH.
Qed.

Lemma assign_ids_of_pair next (l : list Z) :
  Forall (of_pair u a) (assign_ids next (map (Unfollower.init u a) l)).
Proof.
  revert next. induction l as [|x l IH]; intros next; cbn; [done|].
  constructor; [done|apply IH].
Qed.

Lemma filter_all {A} (P : A → Prop) `{!∀ x, Decision (P x)} (l : list A) :
  Forall P l → filter P l = l.
Proof.
  induction 1 as [|x l HP _ IH]; [done|].
  by rewrite filter_cons_True, IH.
Qed.

Lemma filter_none {A} (P : A → Prop) `{!∀ x, Decision (P x)} (l : list A) :
  Forall (λ x, ¬ P x) l → filter P l = [].
Proof.
  induction 1 as [|x l HP _ IH]; [done|].
  by rewrite filter_cons_False.
Qed.

Lemma filter_not_filter {A} (P : A → Prop) `{!∀ x, Decision (P x)} (l : list A) :
  filter P (filter (λ x, ¬ P x) l) = [].
Proof.
  apply filter_none, Forall_forall.
  by intros x [? _]%list_elem_of_filter.
Qed.

Lemma filter_not_idemp {A} (P : A → Prop) `{!∀ x, Decision (P x)} (l : list A) :
  filter (λ x, ¬ P x) (filter (λ x, ¬ P x) l) = filter (λ x, ¬ P x) l.
Proof.
  apply filter_all, Forall_forall.
  by intros x [? _]%list_elem_of_filter.
Qed.

(** The rows of the pair after the replacement are the new rows; the rows
    of the other pairs are the ones that were there. *)
Lemma replaced_of_pair (rows : list Unfollower.t) next (l : list Z) :
  filter (of_pair u a)
    (filter (λ r, ¬ of_pair u a r) rows ++
     assign_ids next (map (Unfollower.init u a) l)) =
  assign_ids next (map (Unfollower.init u a) l).
Proof.
  rewrite filter_app, filter_not_filter.
  apply filter_all, assign_ids_of_pair.
Qed.

Lemma replaced_others (rows : list Unfollower.t) next (l : list Z) :
  filter (λ r, ¬ of_pair u a r)
    (filter (λ r, ¬ of_pair u a r) rows ++
     assign_ids next (map (Unfollower.init u a) l)) =
  filter (λ r, ¬ of_pair u a r) rows.
Proof.
  rewrite filter_app, filter_not_idemp.
  rewrite (filter_none (λ r, ¬ of_pair u a r) (assign_ids _ _));
    [by rewrite app_nil_r|].
  eapply Forall_impl; [apply assign_ids_of_pair|]. naive_solver.
Qed.
End NewRows.

(** ** Known unfollowers *)

(** C2: [get_known_unfollowers u] returns the set of the
    [instagram_unfollower_id] of all rows whose [telegram_author_id] is [u],
    whatever account they belong to; the database is left as it was, the
    set is empty when there is no such row, and no exception is raised for
    a user that is not known. *)
Theorem get_known_unfollowers_union (d : Database) (u : Z) :
  ∃ K : gset Z,
    run (get_known_unfollowers u) d = (Ok K, d) ∧
    (∀ x, x ∈ K ↔
          ∃ r, r ∈ unfollowers d ∧ Unfollower.telegram_author_id r = u ∧
               Unfollower.instagram_unfollower_id r = x) ∧
    (Forall (λ r, Unfollower.telegram_author_id r ≠ u) (unfollowers d) → K = ∅).
Proof.
  eexists. split; [apply run_get_known_unfollowers|]. split.
  - intros x. rewrite elem_of_list_to_set, list_elem_of_fmap. split.
    + intros (r & -> & [? ?]%list_elem_of_filter). eauto.
    + intros (r & ? & ? & <-). exists r. split; [done|].
      by apply list_elem_of_filter.
  - intros Hnone. by rewrite filter_none.
Qed.

(** An unknown user among rows of other users: the empty set. *)
Lemma get_known_unfollowers_union_witness :
  let d := db_after (update_known_unfollowers 1 10 {[100; 101]}) empty_database in
  ∃ K : gset Z, run (get_known_unfollowers 7) d = (Ok K, d) ∧ K = ∅.
Proof.
  intros d. destruct (get_known_unfollowers_union d 7) as (K & HK & _ & Hempty).
  exists K. split; [exact HK|]. apply Hempty.
  vm_compute. repeat constructor; discriminate.
Defined.

(** C1: [update_known_unfollowers u a ids] leaves exactly one row of the
    pair [(u, a)] for each id in [ids] (the rows the pair had are deleted
    first), leaves the rows of every other pair and the settings rows as they
    were, and with the empty set it only deletes, so that the pair has no
    known unfollower.  The last part is the scenario of two accounts of
    user 1. *)
Theorem update_known_unfollowers_replaces (d : Database) (u a : Z) (ids : gset Z) :
  (∃ d',
     run (update_known_unfollowers u a ids) d = (Ok (), d') ∧
     Forall (of_pair u a) (filter (of_pair u a) (unfollowers d')) ∧
     NoDup (map Unfollower.instagram_unfollower_id
              (filter (of_pair u a) (unfollowers d'))) ∧
     (∀ x, x ∈ map Unfollower.instagram_unfollower_id
                 (filter (of_pair u a) (unfollowers d')) ↔ x ∈ ids) ∧
     filter (λ r, ¬ of_pair u a r) (unfollowers d') =
       filter (λ r, ¬ of_pair u a r) (unfollowers d) ∧
     telegram_users d' = telegram_users d) ∧
  (run (update_known_unfollowers u a ∅) d =
     (Ok (), mkDatabase (filter (λ r, ¬ of_pair u a r) (unfollowers d))
                        (unfollowers_next_id d)
                        (telegram_users d) (telegram_users_next_id d)) ∧
   filter (of_pair u a)
     (unfollowers (db_after (update_known_unfollowers u a ∅) d)) = []) ∧
  (let d1 := db_after (update_known_unfollowers 1 10 {[100; 101]}) empty_database in
   let d2 := db_after (update_known_unfollowers 1 20 {[200]}) d1 in
   let d3 := db_after (update_known_unfollowers 1 10 ∅) d2 in
   returned (get_known_unfollowers 1) d2 = Ok {[100; 101; 200]} ∧
   returned (get_known_unfollowers 1) d3 = Ok {[200]}).
Proof.
  split_and!.
  - eexists. split; [apply run_update_known_unfollowers|].
    cbn [unfollowers telegram_users]. rewrite replaced_of_pair, replaced_others.
    rewrite assign_ids_unfollower_ids. split_and!; [| | |done..].
    + apply assign_ids_of_pair.
    + apply NoDup_elements.
    + intros x. apply elem_of_elements.
  - rewrite run_update_known_unfollowers, elements_empty. cbn.
    by rewrite app_nil_r, Z.add_0_r.
  - unfold db_after. rewrite run_update_known_unfollowers, elements_empty. cbn.
    rewrite app_nil_r. apply filter_not_filter.
  - split; vm_compute; reflexivity.
Qed.

(** What [get_known_unfollowers] reads is in the records: the primary keys
    play no part. *)
Lemma known_from_records (u : Z) (rows : list Unfollower.t) :
  map Unfollower.instagram_unfollower_id
      (filter (λ r, Unfollower.telegram_author_id r = u) rows) =
  map snd (filter (λ t : Z * Z * Z, t.1.1 = u) (map UnfollowerRecord rows)).
Proof.
  induction rows as [|r rows IH]; [done|].
  cbn [map]. rewrite !filter_cons. cbn [UnfollowerRecord fst].
  destruct (decide (Unfollower.telegram_author_id r = u)); cbn; by rewrite IH.
Qed.

(** C8: replacing the set of a pair twice in a row with the same set stores
    the same data as replacing it once, [get_known_unfollowers] returns the
    same set for every user, and the pair holds no unfollower id twice. *)
Theorem update_known_unfollowers_idempotent (d : Database) (u a : Z) (ids : gset Z) :
  let d1 := db_after (update_known_unfollowers u a ids) d in
  let d2 := db_after (update_known_unfollowers u a ids) d1 in
  stored d2 = stored d1 ∧
  (∀ u', returned (get_known_unfollowers u') d2 =
         returned (get_known_unfollowers u') d1) ∧
  NoDup (map Unfollower.instagram_unfollower_id
           (filter (of_pair u a) (unfollowers d2))).
Proof.
  intros d1 d2.
  assert (Hrec : map UnfollowerRecord (unfollowers d2) =
                 map UnfollowerRecord (unfollowers d1)).
  { unfold d2, d1, db_after. rewrite !run_update_known_unfollowers.
    cbn [snd unfollowers unfollowers_next_id].
    rewrite replaced_others, !map_app. by rewrite !assign_ids_records. }
  assert (Husers : telegram_users d2 = telegram_users d1).
  { unfold d2, d1, db_after. by rewrite !run_update_known_unfollowers. }
  split_and!.
  - unfold stored. by rewrite Hrec, Husers.
  - intros u'. unfold returned. rewrite !run_get_known_unfollowers.
    cbn [fst]. by rewrite !known_from_records, Hrec.
  - unfold d2, db_after. rewrite run_update_known_unfollowers.
    cbn [snd unfollowers]. rewrite replaced_of_pair, assign_ids_unfollower_ids.
    apply NoDup_elements.
Qed.

(** ** Lookups *)

(** C9: the three lookups return a value on every database, and for a user
    with no stored data they return the empty set and None; [get_instagram_id]
    returns None where the row is absent, the AttributeError of the missing
    row being caught; the two notification switches tell the absence by
    returning False. *)
Theorem lookups_total (d : Database) (u : Z) :
  (∃ (K : gset Z) (i : option Z) (l : option string),
     run (get_known_unfollowers u) d = (Ok K, d) ∧
     run (get_instagram_id u) d = (Ok i, d) ∧
     run (get_language u) d = (Ok l, d)) ∧
  (Forall (λ r, Unfollower.telegram_author_id r ≠ u) (unfollowers d) →
   no_settings u d →
   run (get_known_unfollowers u) d = (Ok ∅, d) ∧
   run (get_instagram_id u) d = (Ok None, d) ∧
   run (get_language u) d = (Ok None, d) ∧
   run (start_notifying u) d = (Ok false, d) ∧
   run (stop_notifying u) d = (Ok false, d)).
Proof.
  split.
  - do 3 eexists. split_and!;
      [apply run_get_known_unfollowers|apply run_get_instagram_id
      |apply run_get_language].
  - intros Hrows Hnone. unfold no_settings in Hnone.
    apply (list_find_None (λ r, TelegramUser.telegram_id r = u)) in Hnone.
    rewrite run_get_known_unfollowers, run_get_instagram_id, run_get_language.
    rewrite (run_set_notified d true u), (run_set_notified d false u).
    rewrite Hnone. by rewrite filter_none.
Qed.

(** User 7 has no data in a database that holds data of users 1 and 42. *)
Lemma lookups_total_witness :
  let d := db_after (set_language 42 (Some "en"%string))
             (db_after (update_known_unfollowers 1 10 {[100; 101]}) empty_database) in
  run (get_known_unfollowers 7) d = (Ok ∅, d) ∧
  run (get_instagram_id 7) d = (Ok None, d) ∧
  run (get_language 7) d = (Ok None, d) ∧
  run (start_notifying 7) d = (Ok false, d) ∧
  run (stop_notifying 7) d = (Ok false, d).
Proof.
  intros d. apply (lookups_total d 7).
  - vm_compute. repeat constructor; discriminate.
  - vm_compute. repeat constructor; discriminate.
Defined.

(** ** Settings rows *)


Lemma set_instagram_id_keeps_owner v : keeps_owner (TelegramUser.set_instagram_id v).
Proof. by intros r. Qed.
Lemma set_is_notified_keeps_owner v : keeps_owner (TelegramUser.set_is_notified v).
Proof. by intros r. Qed.
Lemma set_language_keeps_owner v : keeps_owner (TelegramUser.set_language v).
Proof. by intros r. Qed.

Create HintDb settings discriminated.
#[export] Hint Resolve set_instagram_id_keeps_owner set_is_notified_keeps_owner
  set_language_keeps_owner : settings.

Section SettingsRows.
Variables (d : Database) (u : Z).

Lemma has_settings_find :
  has_settings u d ↔
  is_Some (list_find (λ r, TelegramUser.telegram_id r = u) (telegram_users d)).
Proof.
  rewrite (list_find_is_Some_iff (λ r, TelegramUser.telegram_id r = u)).
  unfold has_settings. naive_solver.
Qed.

Lemma no_settings_find :
  no_settings u d ↔
  list_find (λ r, TelegramUser.telegram_id r = u) (telegram_users d) = None.
Proof.
  by rewrite (list_find_None (λ r, TelegramUser.telegram_id r = u)).
Qed.

Lemma no_settings_not_has : no_settings u d ↔ ¬ has_settings u d.
Proof.
  rewrite no_settings_find, has_settings_find, eq_None_not_Some. done.
Qed.

(** Assigning to an attribute of the object [.first()] returned. *)
Lemma found_row_updated f i r :
  list_find (λ r, TelegramUser.telegram_id r = u) (telegram_users d) = Some (i, r) →
  first_row_updated u f d
    (mkDatabase (unfollowers d) (unfollowers_next_id d)
                (alter f i (telegram_users d)) (telegram_users_next_id d)).
Proof.
  intros (l1 & l2 & Hl & <- & Hl1 & Hr)%list_find_split.
  exists l1, r, l2. split_and!; [done..|].
  by rewrite Hl, alter_middle.
Qed.

(** What an update of the first row of [u] leaves as it was. *)
Lemma first_row_updated_frame f d' :
  keeps_owner f →
  first_row_updated u f d d' →
  unfollowers d' = unfollowers d ∧
  filter (λ r, TelegramUser.telegram_id r ≠ u) (telegram_users d') =
    filter (λ r, TelegramUser.telegram_id r ≠ u) (telegram_users d) ∧
  map TelegramUser.telegram_id (telegram_users d') =
    map TelegramUser.telegram_id (telegram_users d) ∧
  ∃ i r,
    list_find (λ r, TelegramUser.telegram_id r = u) (telegram_users d) = Some (i, r) ∧
    list_find (λ r, TelegramUser.telegram_id r = u) (telegram_users d') = Some (i, f r).
Proof.
  intros Hf (l1 & r & l2 & Hd & Hl1 & Hr & ->). cbn. rewrite Hd.
  split_and!; [done| | |].
  - rewrite !filter_app, !filter_cons.
    rewrite !decide_False; [done|rewrite ?Hf; naive_solver..].
  - rewrite !map_app. cbn. by rewrite Hf.
  - exists (length l1), r.
    split; apply (list_find_middle (λ r, TelegramUser.telegram_id r = u));
      rewrite ?Hf; done.
Qed.
End SettingsRows.

(** The three writers on a user whose row is there. *)
Lemma update_instagram_id_present d u a :
  has_settings u d →
  ∃ d', run (update_instagram_id u a) d = (Ok (), d') ∧
        first_row_updated u (TelegramUser.set_instagram_id (Some a)) d d'.
Proof.
  intros [[i r] Hfind]%has_settings_find.
  eexists. split; [apply run_update_instagram_id|].
  rewrite Hfind. by eapply found_row_updated.
Qed.

Lemma set_language_present d u l :
  has_settings u d →
  ∃ d', run (set_language u l) d = (Ok (), d') ∧
        first_row_updated u (TelegramUser.set_language l) d d'.
Proof.
  intros [[i r] Hfind]%has_settings_find.
  eexists. split; [apply run_set_language|].
  rewrite Hfind. by eapply found_row_updated.
Qed.

Lemma set_notified_present d u (b : bool) :
  has_settings u d →
  ∃ d', run (if b then start_notifying u else stop_notifying u) d = (Ok true, d') ∧
        first_row_updated u (TelegramUser.set_is_notified b) d d'.
Proof.
  intros [[i r] Hfind]%has_settings_find.
  eexists. rewrite run_set_notified, Hfind. split; [done|].
  by eapply found_row_updated.
Qed.

Lemma set_notified_absent d u (b : bool) :
  no_settings u d →
  run (if b then start_notifying u else stop_notifying u) d = (Ok false, d).
Proof.
  intros Hfind%no_settings_find. by rewrite run_set_notified, Hfind.
Qed.

(** C10: on a user whose settings row exists, [set_language] changes the
    language of that row and nothing else, and [update_instagram_id] changes
    its [instagram_id] and nothing else: the other columns of the row keep
    their values, no row of [unfollowers] changes and no row of another user
    changes. *)
Theorem settings_writers_frame (d : Database) (u : Z) (Hrow : has_settings u d) :
  (∀ l, ∃ d' i r,
     run (set_language u l) d = (Ok (), d') ∧
     first_row_updated u (TelegramUser.set_language l) d d' ∧
     list_find (λ r, TelegramUser.telegram_id r = u) (telegram_users d) = Some (i, r) ∧
     list_find (λ r, TelegramUser.telegram_id r = u) (telegram_users d') =
       Some (i, TelegramUser.mk (TelegramUser.id r) u (TelegramUser.instagram_id r)
                  (TelegramUser.is_notified r) l) ∧
     unfollowers d' = unfollowers d ∧
     filter (λ r, TelegramUser.telegram_id r ≠ u) (telegram_users d') =
       filter (λ r, TelegramUser.telegram_id r ≠ u) (telegram_users d)) ∧
  (∀ a, ∃ d' i r,
     run (update_instagram_id u a) d = (Ok (), d') ∧
     first_row_updated u (TelegramUser.set_instagram_id (Some a)) d d' ∧
     list_find (λ r, TelegramUser.telegram_id r = u) (telegram_users d) = Some (i, r) ∧
     list_find (λ r, TelegramUser.telegram_id r = u) (telegram_users d') =
       Some (i, TelegramUser.mk (TelegramUser.id r) u (Some a)
                  (TelegramUser.is_notified r) (TelegramUser.language r)) ∧
     unfollowers d' = unfollowers d ∧
     filter (λ r, TelegramUser.telegram_id r ≠ u) (telegram_users d') =
       filter (λ r, TelegramUser.telegram_id r ≠ u) (telegram_users d)).
Proof.
  split.
  - intros l. destruct (set_language_present d u l Hrow) as (d' & Hrun & Hupd).
    destruct (first_row_updated_frame d u _ d' (set_language_keeps_owner l) Hupd)
      as (Hunf & Hothers & _ & i & r & Hfind & Hfind').
    exists d', i, r. split_and!; [done..| |done|done].
    rewrite Hfind'. unfold TelegramUser.set_language.
    apply list_find_Some in Hfind as (_ & -> & _). done.
  - intros a. destruct (update_instagram_id_present d u a Hrow) as (d' & Hrun & Hupd).
    destruct (first_row_updated_frame d u _ d' (set_instagram_id_keeps_owner (Some a)) Hupd)
      as (Hunf & Hothers & _ & i & r & Hfind & Hfind').
    exists d', i, r. split_and!; [done..| |done|done].
    rewrite Hfind'. unfold TelegramUser.set_instagram_id.
    apply list_find_Some in Hfind as (_ & -> & _). done.
Qed.


Lemma three_users_has_2 : has_settings 2 three_users.
Proof.
  exists (TelegramUser.mk 2 2 (Some 20) true (Some "de"%string)).
  split; [|done]. vm_compute. apply list_elem_of_further, list_elem_of_here.
Defined.

Lemma settings_writers_frame_witness :
  ∃ d' i r,
    run (set_language 2 (Some "fr"%string)) three_users = (Ok (), d') ∧
    first_row_updated 2 (TelegramUser.set_language (Some "fr"%string)) three_users d' ∧
    list_find (λ r, TelegramUser.telegram_id r = 2) (telegram_users three_users) = Some (i, r) ∧
    list_find (λ r, TelegramUser.telegram_id r = 2) (telegram_users d') =
      Some (i, TelegramUser.mk (TelegramUser.id r) 2 (TelegramUser.instagram_id r)
                 (TelegramUser.is_notified r) (Some "fr"%string)) ∧
    unfollowers d' = unfollowers three_users ∧
    filter (λ r, TelegramUser.telegram_id r ≠ 2) (telegram_users d') =
      filter (λ r, TelegramUser.telegram_id r ≠ 2) (telegram_users three_users).
Proof.
  exact (proj1 (settings_writers_frame three_users 2 three_users_has_2)
           (Some "fr"%string)).
Defined.

(** The two row-creating writers on a user with no row. *)
Lemma update_instagram_id_absent d u a :
  no_settings u d →
  ∃ d', run (update_instagram_id u a) d = (Ok (), d') ∧
        row_appended (λ pk, TelegramUser.mk pk u (Some a) false None) d d'.
Proof.
  intros Hfind%no_settings_find.
  eexists. split; [apply run_update_instagram_id|]. by rewrite Hfind.
Qed.

Lemma set_language_absent d u l :
  no_settings u d →
  ∃ d', run (set_language u l) d = (Ok (), d') ∧
        row_appended (λ pk, TelegramUser.mk pk u None false l) d d'.
Proof.
  intros Hfind%no_settings_find.
  eexists. split; [apply run_set_language|]. by rewrite Hfind.
Qed.

(** The set [get_notified_telegram_ids] returns. *)
Lemma notified_ids d :
  ∃ K : gset Z,
    run get_notified_telegram_ids d = (Ok K, d) ∧
    ∀ x, x ∈ K ↔ ∃ r, r ∈ telegram_users d ∧ TelegramUser.telegram_id r = x ∧
                      TelegramUser.is_notified r = true.
Proof.
  eexists. split; [apply run_get_notified_telegram_ids|].
  intros x. rewrite elem_of_list_to_set, list_elem_of_fmap. split.
  - intros (r & -> & [? ?]%list_elem_of_filter). eauto.
  - intros (r & ? & <- & ?). exists r. split; [done|].
    by apply list_elem_of_filter.
Qed.

(** After a row is appended for a user that had none, it is the row the
    lookups of that user find. *)
Lemma row_appended_find d d' u (r : Z → TelegramUser.t) :
  no_settings u d →
  (∀ pk, TelegramUser.telegram_id (r pk) = u) →
  row_appended r d d' →
  list_find (λ x, TelegramUser.telegram_id x = u) (telegram_users d') =
    Some (length (telegram_users d), r (telegram_users_next_id d)).
Proof.
  intros Hnone Hr ->. cbn.
  apply (list_find_middle (λ x, TelegramUser.telegram_id x = u)); [|done].
  eapply Forall_impl; [exact Hnone|]. naive_solver.
Qed.

(** The row [.first()] found, changed through the object: the table is the
    old one with the changed row at the place of the found one, and it is the
    row [.first()] finds next. *)
Lemma found_row_replaced (u : Z) (f : TelegramUser.t → TelegramUser.t)
    (rows : list TelegramUser.t) (i : nat) (r : TelegramUser.t) :
  keeps_owner f →
  list_find (λ r, TelegramUser.telegram_id r = u) rows = Some (i, r) →
  alter f i rows = <[i := f r]> rows ∧
  list_find (λ r, TelegramUser.telegram_id r = u) (<[i := f r]> rows) = Some (i, f r).
Proof.
  intros Hf Hfind.
  apply (list_find_split (λ r, TelegramUser.telegram_id r = u))
    in Hfind as (l1 & l2 & -> & <- & Hl1 & Hr).
  assert (Hins : <[length l1 := f r]> (l1 ++ r :: l2) = l1 ++ f r :: l2).
  { rewrite <-(Nat.add_0_r (length l1)). by rewrite insert_app_r. }
  rewrite Hins, alter_middle. split; [done|].
  apply (list_find_middle (λ r, TelegramUser.telegram_id r = u)); [done|].
  by rewrite Hf.
Qed.

(** C5: rows are created by the first write.  For a user with no settings
    row, [set_language u l] appends the row [(u, None, False, l)]: after it
    [get_language u] returns [l], [get_instagram_id u] returns None and [u]
    is not among the notified users; [update_instagram_id u a] appends the
    row [(u, a, False, None)], and [get_instagram_id u] then returns [a].
    For a user whose row exists, [update_instagram_id u a] changes the
    [instagram_id] of that row in place: the table is the old one with, at
    the place of the row [.first()] finds, the same row with [instagram_id]
    now [a]; no row is added, [get_instagram_id u] then returns [a] and
    [get_language u] what it returned before. *)
Theorem lazy_row_creation (d : Database) (u : Z) :
  (no_settings u d →
   (∀ l, ∃ d',
      run (set_language u l) d = (Ok (), d') ∧
      row_appended (λ pk, TelegramUser.mk pk u None false l) d d' ∧
      run (get_language u) d' = (Ok l, d') ∧
      run (get_instagram_id u) d' = (Ok None, d') ∧
      ∃ K : gset Z, run get_notified_telegram_ids d' = (Ok K, d') ∧ u ∉ K) ∧
   (∀ a, ∃ d',
      run (update_instagram_id u a) d = (Ok (), d') ∧
      row_appended (λ pk, TelegramUser.mk pk u (Some a) false None) d d' ∧
      run (get_instagram_id u) d' = (Ok (Some a), d') ∧
      run (get_language u) d' = (Ok None, d'))) ∧
  (has_settings u d →
   ∀ a, ∃ d' i r,
     run (update_instagram_id u a) d = (Ok (), d') ∧
     first_row_updated u (TelegramUser.set_instagram_id (Some a)) d d' ∧
     list_find (λ r, TelegramUser.telegram_id r = u) (telegram_users d) = Some (i, r) ∧
     d' = mkDatabase (unfollowers d) (unfollowers_next_id d)
            (<[i := TelegramUser.mk (TelegramUser.id r) u (Some a)
                      (TelegramUser.is_notified r) (TelegramUser.language r)]>
               (telegram_users d))
            (telegram_users_next_id d) ∧
     length (telegram_users d') = length (telegram_users d) ∧
     run (get_instagram_id u) d' = (Ok (Some a), d') ∧
     run (get_language u) d' = (Ok (TelegramUser.language r), d')).
Proof.
  split.
  - intros Hnone. split.
    + intros l. destruct (set_language_absent d u l Hnone) as (d' & Hrun & Happ).
      exists d'. split_and!; [done..| | |].
      * rewrite run_get_language.
        by rewrite (row_appended_find d d' u
                      (λ pk, TelegramUser.mk pk u None false l) Hnone (λ _, eq_refl) Happ).
      * rewrite run_get_instagram_id.
        by rewrite (row_appended_find d d' u
                      (λ pk, TelegramUser.mk pk u None false l) Hnone (λ _, eq_refl) Happ).
      * destruct (notified_ids d') as (K & HK & Hmem).
        exists K. split; [done|]. rewrite Hmem.
        intros (r & Hr & Hu & Hn). rewrite Happ in Hr. cbn in Hr.
        apply elem_of_app in Hr as [Hr|Hr%list_elem_of_singleton].
        -- unfold no_settings in Hnone. rewrite Forall_forall in Hnone.
           by apply (Hnone r).
        -- by subst r.
    + intros a. destruct (update_instagram_id_absent d u a Hnone) as (d' & Hrun & Happ).
      exists d'. split_and!; [done..| |].
      * rewrite run_get_instagram_id.
        by rewrite (row_appended_find d d' u
                      (λ pk, TelegramUser.mk pk u (Some a) false None)
                      Hnone (λ _, eq_refl) Happ).
      * rewrite run_get_language.
        by rewrite (row_appended_find d d' u
                      (λ pk, TelegramUser.mk pk u (Some a) false None)
                      Hnone (λ _, eq_refl) Happ).
  - intros Hrow a.
    destruct (update_instagram_id_present d u a Hrow) as (d' & Hrun & Hupd).
    pose proof Hrow as [[i r] Hfind]%has_settings_find.
    destruct (found_row_replaced u (TelegramUser.set_instagram_id (Some a))
                (telegram_users d) i r (set_instagram_id_keeps_owner (Some a)) Hfind)
      as [Halter Hfind'].
    assert (Hr : TelegramUser.telegram_id r = u)
      by (by apply list_find_Some in Hfind as (_ & ? & _)).
    assert (Hd' : d' = mkDatabase (unfollowers d) (unfollowers_next_id d)
                    (<[i := TelegramUser.mk (TelegramUser.id r) u (Some a)
                              (TelegramUser.is_notified r) (TelegramUser.language r)]>
                       (telegram_users d))
                    (telegram_users_next_id d)).
    { rewrite run_update_instagram_id, Hfind in Hrun. cbn [fst] in Hrun.
      rewrite Halter in Hrun. unfold TelegramUser.set_instagram_id in Hrun.
      rewrite Hr in Hrun. by injection Hrun as <-. }
    unfold TelegramUser.set_instagram_id in Hfind'. rewrite Hr in Hfind'.
    exists d', i, r. split_and!; [done..| | |].
    + rewrite Hd'. cbn [telegram_users]. apply length_insert.
    + rewrite run_get_instagram_id, Hd'. cbn [telegram_users].
      by rewrite Hfind'.
    + rewrite run_get_language, Hd'. cbn [telegram_users].
      by rewrite Hfind'.
Qed.

(** The new store: [set_language 42 "en"], then the two lookups; and a new
    account for user 2 of [three_users], whose language stays. *)
Lemma lazy_row_creation_witness :
  (let d' := db_after (set_language 42 (Some "en"%string)) empty_database in
   run (get_language 42) d' = (Ok (Some "en"%string), d') ∧
   run (get_instagram_id 42) d' = (Ok None, d')) ∧
  (∃ d',
     run (update_instagram_id 2 99) three_users = (Ok (), d') ∧
     length (telegram_users d') = length (telegram_users three_users) ∧
     run (get_instagram_id 2) d' = (Ok (Some 99), d') ∧
     run (get_language 2) d' = (Ok (Some "de"%string), d')).
Proof.
  split.
  - intros d'.
    assert (Hnone : no_settings 42 empty_database) by constructor.
    destruct (proj1 (proj1 (lazy_row_creation empty_database 42) Hnone)
                (Some "en"%string)) as (d'' & Hrun & _ & Hlang & Hlink & _).
    assert (d' = d'') as -> by (unfold d', db_after; by rewrite Hrun).
    done.
  - destruct (proj2 (lazy_row_creation three_users 2) three_users_has_2 99)
      as (d' & i & r & Hrun & _ & Hfind & _ & Hlen & Hlink & Hlang).
    exists d'. split_and!; [done..|].
    vm_compute in Hfind. injection Hfind as _ <-. exact Hlang.
Defined.

(** ** Notifications *)

(** C4: [start_notifying u] returns True exactly when [u] has a settings
    row, and then sets [is_notified] of that row; otherwise it returns False
    and the database is as before, no row being created; [stop_notifying]
    does the same with False; [get_notified_telegram_ids] returns the
    [telegram_id] of the rows whose [is_notified] is true; so [u] is in that
    set after a [start_notifying] that returned True and, where [u] has one
    row, not after a [stop_notifying] that follows it. *)
Theorem notification_switches (d : Database) (u : Z) :
  (∀ b : bool,
     let switch := if b then start_notifying u else stop_notifying u in
     (has_settings u d →
      ∃ d', run switch d = (Ok true, d') ∧
            first_row_updated u (TelegramUser.set_is_notified b) d d') ∧
     (¬ has_settings u d → run switch d = (Ok false, d))) ∧
  (∃ K : gset Z,
     run get_notified_telegram_ids d = (Ok K, d) ∧
     ∀ x, x ∈ K ↔ ∃ r, r ∈ telegram_users d ∧ TelegramUser.telegram_id r = x ∧
                       TelegramUser.is_notified r = true) ∧
  (has_settings u d →
   ∃ d1 d2 (K1 K2 : gset Z),
     run (start_notifying u) d = (Ok true, d1) ∧
     run get_notified_telegram_ids d1 = (Ok K1, d1) ∧ u ∈ K1 ∧
     run (stop_notifying u) d1 = (Ok true, d2) ∧
     run get_notified_telegram_ids d2 = (Ok K2, d2) ∧
     (unique_settings d → u ∉ K2)).
Proof.
  split_and!.
  - intros b switch. split.
    + apply set_notified_present.
    + intros Hnone%no_settings_not_has. by apply set_notified_absent.
  - apply notified_ids.
  - intros Hrow.
    destruct (set_notified_present d u true Hrow) as (d1 & Hrun1 & Hupd1).
    assert (Hrow1 : has_settings u d1).
    { destruct Hupd1 as (l1 & r & l2 & _ & _ & Hr & ->).
      exists (TelegramUser.set_is_notified true r). split; [|done].
      cbn. apply elem_of_app. right. apply list_elem_of_here. }
    destruct (set_notified_present d1 u false Hrow1) as (d2 & Hrun2 & Hupd2).
    destruct (notified_ids d1) as (K1 & HK1 & Hmem1).
    destruct (notified_ids d2) as (K2 & HK2 & Hmem2).
    exists d1, d2, K1, K2. split_and!; [done..| |done|done|].
    + apply Hmem1. destruct Hupd1 as (l1 & r & l2 & _ & _ & Hr & ->).
      exists (TelegramUser.set_is_notified true r). split_and!; [|done..].
      cbn. apply elem_of_app. right. apply list_elem_of_here.
    + intros Huniq. rewrite Hmem2. intros (x & Hx & Hu & Hn).
      destruct (first_row_updated_frame d u _ d1
                  (set_is_notified_keeps_owner true) Hupd1) as (_ & _ & Hids1 & _).
      destruct Hupd2 as (l1 & r & l2 & Hd1 & Hl1 & Hr & ->).
      unfold unique_settings in Huniq. rewrite <-Hids1, Hd1 in Huniq.
      rewrite map_app in Huniq. cbn in Huniq, Hx.
      apply NoDup_app in Huniq as (_ & Hdisj & [Hnotin _]%NoDup_cons).
      apply elem_of_app in Hx as [Hx|[->|Hx]%elem_of_cons].
      * rewrite Forall_forall in Hl1. by apply (Hl1 x).
      * done.
      * apply Hnotin. rewrite Hr, <-Hu. apply list_elem_of_fmap. eauto.
Qed.

(** User 2 of [three_users], whose row is the only one it has. *)
Lemma notification_switches_witness :
  ∃ d1 d2 (K1 K2 : gset Z),
    run (start_notifying 2) three_users = (Ok true, d1) ∧
    run get_notified_telegram_ids d1 = (Ok K1, d1) ∧ 2 ∈ K1 ∧
    run (stop_notifying 2) d1 = (Ok true, d2) ∧
    run get_notified_telegram_ids d2 = (Ok K2, d2) ∧ 2 ∉ K2.
Proof.
  destruct (proj2 (proj2 (notification_switches three_users 2)) three_users_has_2)
    as (d1 & d2 & K1 & K2 & H1 & H2 & H3 & H4 & H5 & H6).
  exists d1, d2, K1, K2. split_and!; [done..|].
  apply H6. unfold unique_settings. apply (bool_decide_unpack _). by vm_compute.
Defined.

(** ** Failures of the engine *)

(** Splits on the next fault, on the row [.first()] finds and on the kind
    of the fault, until the call is run through. *)
Ltac fault_cases :=
  repeat (session_steps;
          match goal with
          | |- context [match ?fs with [] => _ | _ :: _ => _ end] =>
              is_var fs; destruct fs as [|[?|] ?]
          | |- context [list_find ?P ?l] => destruct (list_find P l) as [[? ?]|]
          | |- context [exn_of_fault ?f] => is_var f; destruct f
          end).

(** C7: a call either commits or leaves the database as it was.  The
    exception that reaches the caller is the one of the first call to the
    engine that fails during the operation, if there is one: then the
    database is the one before the call, and the session was rolled back
    (for every [Exception]) and then closed.  When no call to the engine
    fails, the session was committed and closed, and the database is the one
    the call gives when the engine does not fail.  The session is closed
    last on every path. *)
Theorem session_scope_atomic (o : operation) (d : Database) (fs : list (option fault)) :
  let '(err, d', tr) := perform o d fs in
  err = exn_of_fault <$> first_fault (take (engine_calls o) fs) ∧
  last tr = Some Close ∧
  match err with
  | None => tr = [Open; Commit; Close] ∧ d' = (perform o d []).1.2
  | Some e =>
      d' = d ∧
      tr = if is_Exception e then [Open; Rollback; Close] else [Open; Close]
  end.
Proof.
  destruct o; fault_cases; by cbn.
Qed.

(** The rows of a pair are deleted, then the INSERT fails: the rows are
    there after the call. *)
Example failed_insert_keeps_rows :
  let d := db_after (update_known_unfollowers 1 10 {[100; 101]}) empty_database in
  perform (UpdateKnownUnfollowers 1 10 {[5]}) d [None; Some (Failure 3)] =
    (Some (SQLAlchemyError 3), d, [Open; Rollback; Close]).
Proof. by vm_compute. Qed.

(** The database after a call, whatever the engine does: the one before
    when an exception came out, else the one of the call without faults. *)
Lemma perform_commits_or_keeps (o : operation) (d : Database) (fs : list (option fault)) :
  match (perform o d fs).1.1 with
  | None => (perform o d fs).1.2 = (perform o d []).1.2
  | Some _ => (perform o d fs).1.2 = d
  end.
Proof. destruct o; fault_cases; done. Qed.

Lemma outcome_db {A} (m : M A) (d : Database) :
  (outcome (call m d [])).1.2 = db_after m d.
Proof.
  unfold db_after, run, outcome. by destruct (call m d []) as [[r d'] tr].
Qed.

(** ** Histories *)



Lemma has_settings_owner u d : has_settings u d ↔ u ∈ owners d.
Proof.
  unfold has_settings, owners. rewrite list_elem_of_fmap. split.
  - intros (r & ? & <-). by exists r.
  - intros (r & -> & ?). by exists r.
Qed.

Lemma settings_row_or_not u d : has_settings u d ∨ ¬ has_settings u d.
Proof.
  rewrite has_settings_owner. destruct (decide (u ∈ owners d)); auto.
Qed.

Lemma first_row_updated_owners u f d d' :
  keeps_owner f → first_row_updated u f d d' → owners d' = owners d.
Proof.
  intros Hf Hupd.
  by destruct (first_row_updated_frame d u f d' Hf Hupd) as (_ & _ & ? & _).
Qed.

Lemma row_appended_owners u (r : Z → TelegramUser.t) d d' :
  (∀ pk, TelegramUser.telegram_id (r pk) = u) →
  row_appended r d d' → owners d' = owners d ++ [u].
Proof.
  intros Hr ->. unfold owners. cbn. rewrite map_app. cbn. by rewrite Hr.
Qed.

(** The settings table after a call when the engine does not fail. *)
Lemma perform_settings_step (o : operation) (d : Database) :
  settings_step o d (perform o d []).1.2.
Proof.
  destruct o as [u|u a ids|u|u a|u|u| |u|u l]; cbn [perform];
    rewrite outcome_db; unfold db_after.
  - rewrite run_get_known_unfollowers. by apply settings_kept.
  - rewrite run_update_known_unfollowers. by apply settings_kept.
  - rewrite run_get_instagram_id. by apply settings_kept.
  - destruct (settings_row_or_not u d) as [Hrow|Hnone].
    + destruct (update_instagram_id_present d u a Hrow) as (d' & -> & Hupd).
      eapply settings_updated; [| |exact Hupd]; by intros ?.
    + pose proof Hnone as Hnone'. apply no_settings_not_has in Hnone'.
      destruct (update_instagram_id_absent d u a Hnone') as (d' & -> & Happ).
      eapply (settings_created _ _ _ u); [done|done| | |exact Happ]; by intros ?.
  - destruct (settings_row_or_not u d) as [Hrow|Hnone].
    + destruct (set_notified_present d u true Hrow) as (d' & -> & Hupd).
      eapply settings_updated; [| |exact Hupd]; by intros ?.
    + apply no_settings_not_has in Hnone.
      rewrite (set_notified_absent d u true Hnone). by apply settings_kept.
  - destruct (settings_row_or_not u d) as [Hrow|Hnone].
    + destruct (set_notified_present d u false Hrow) as (d' & -> & Hupd).
      eapply settings_updated; [| |exact Hupd]; by intros ?.
    + apply no_settings_not_has in Hnone.
      rewrite (set_notified_absent d u false Hnone). by apply settings_kept.
  - rewrite run_get_notified_telegram_ids. by apply settings_kept.
  - rewrite run_get_language. by apply settings_kept.
  - destruct (settings_row_or_not u d) as [Hrow|Hnone].
    + destruct (set_language_present d u l Hrow) as (d' & -> & Hupd).
      eapply settings_updated; [| |exact Hupd]; by intros ?.
    + pose proof Hnone as Hnone'. apply no_settings_not_has in Hnone'.
      destruct (set_language_absent d u l Hnone') as (d' & -> & Happ).
      eapply (settings_created _ _ _ u); [done|done| | |exact Happ]; by intros ?.
Qed.

(** A call keeps the owners of the settings rows, or it is a row-creating
    call for a user that had no row, it went through, and that user is the
    owner of the one new row. *)
Lemma perform_owners (o : operation) (d : Database) (fs : list (option fault)) :
  owners (perform o d fs).1.2 = owners d ∨
  ∃ u, creates_settings u o ∧ ¬ has_settings u d ∧
       (perform o d fs).1.1 = None ∧
       owners (perform o d fs).1.2 = owners d ++ [u].
Proof.
  pose proof (perform_commits_or_keeps o d fs) as Hcases.
  destruct ((perform o d fs).1.1) as [e|]; rewrite Hcases; [by left|].
  clear Hcases.
  destruct (perform_settings_step o d) as [Hrows _|u f Hf _ Hupd|u r ? ? Hr _ Happ].
  - left. unfold owners. by rewrite Hrows.
  - left. by eapply first_row_updated_owners.
  - right. exists u. split_and!; [done..|].
    by eapply row_appended_owners.
Qed.

Lemma perform_unique_settings (o : operation) (d : Database) (fs : list (option fault)) :
  unique_settings d → unique_settings (perform o d fs).1.2.
Proof.
  unfold unique_settings. fold (owners d) (owners (perform o d fs).1.2).
  intros Huniq.
  destruct (perform_owners o d fs) as [->|(u & _ & Hnone & _ & ->)]; [done|].
  rewrite has_settings_owner in Hnone.
  apply NoDup_app. split_and!; [done| |apply NoDup_singleton].
  intros x Hx ->%list_elem_of_singleton. done.
Qed.

Lemma replay_unique_settings (h : history) (d : Database) :
  unique_settings d → unique_settings (replay h d).
Proof.
  revert d. induction h as [|[o fs] h IH]; intros d Huniq; [done|].
  cbn [replay]. by apply IH, perform_unique_settings.
Qed.

(** C6: after any sequence of calls of the nine operations on the empty
    database, whatever failures the engine has during them, there is at most
    one settings row for each [telegram_id]; each call keeps it so. *)
Theorem one_settings_row_per_user :
  (∀ h : history, unique_settings (replay h empty_database)) ∧
  (∀ (o : operation) (d : Database) (fs : list (option fault)),
     unique_settings d → unique_settings (perform o d fs).1.2).
Proof.
  split.
  - intros h. apply replay_unique_settings. constructor.
  - apply perform_unique_settings.
Qed.

(** A second [set_language] for user 2 of [three_users] adds no row. *)
Lemma one_settings_row_per_user_witness :
  unique_settings (perform (SetLanguage 2 None) three_users []).1.2.
Proof.
  apply (proj2 one_settings_row_per_user).
  unfold unique_settings. apply (bool_decide_unpack _). by vm_compute.
Defined.

(** A settings row in the database after a history was there at its start,
    or a call of the history that went through created it. *)
Lemma replay_has_settings (h : history) (d : Database) (u : Z) :
  has_settings u (replay h d) →
  has_settings u d ∨
  ∃ h1 o fs h2,
    h = h1 ++ (o, fs) :: h2 ∧ creates_settings u o ∧
    (perform o (replay h1 d) fs).1.1 = None.
Proof.
  revert d. induction h as [|[o fs] h IH]; intros d Hrow; [by left|].
  cbn [replay] in Hrow. apply IH in Hrow as [Hrow|Hsplit].
  - rewrite has_settings_owner in Hrow.
    destruct (perform_owners o d fs) as [Hsame|(u' & Hcreates & _ & Hok & Hnew)].
    + left. apply has_settings_owner. by rewrite <-Hsame.
    + rewrite Hnew in Hrow.
      apply elem_of_app in Hrow as [Hrow|Hrow%list_elem_of_singleton].
      * left. by apply has_settings_owner.
      * subst u'. right. by exists [], o, fs, h.
  - right. destruct Hsplit as (h1 & o' & fs' & h2 & -> & Hcreates & Hok).
    by exists ((o, fs) :: h1), o', fs', h2.
Qed.

(** ** Notifications and the account link *)

(** The switch returns True for user 42 after [set_language] alone: no
    call of [update_instagram_id] was made and no account is linked. *)
Lemma switch_without_link_counterexample :
  let h : history := [(SetLanguage 42 (Some "en"%string), [])] in
  let d := replay h empty_database in
  (∀ o fs a, (o, fs) ∈ h → o ≠ UpdateInstagramId 42 a) ∧
  returned (get_instagram_id 42) d = Ok None ∧
  returned (start_notifying 42) d = Ok true ∧
  returned (stop_notifying 42) d = Ok true.
Proof.
  intros h d. split_and!; [|by vm_compute..].
  intros o fs a Hin%list_elem_of_singleton Heq. congruence.
Qed.

(** C3, as amended: a notification switch returns True only for a user
    whose settings row was created before, by a call of
    [update_instagram_id] or of [set_language] that went through; for a
    user with no settings row both switches return False and create no
    row. *)
Theorem switches_need_settings_row (h : history) (u : Z) (b : bool) :
  let d := replay h empty_database in
  let switch := if b then start_notifying u else stop_notifying u in
  (returned switch d = Ok true →
   ∃ h1 o fs h2,
     h = h1 ++ (o, fs) :: h2 ∧ creates_settings u o ∧
     (perform o (replay h1 empty_database) fs).1.1 = None) ∧
  (¬ has_settings u d → run switch d = (Ok false, d)).
Proof.
  intros d switch. split.
  - intros Htrue.
    assert (Hrow : has_settings u d).
    { destruct (settings_row_or_not u d) as [|Hnone]; [done|].
      apply no_settings_not_has in Hnone.
      unfold returned, switch in Htrue.
      by rewrite (set_notified_absent d u b Hnone) in Htrue. }
    apply replay_has_settings in Hrow as [(r & Hr & _)|Hsplit]; [|done].
    by apply elem_of_nil in Hr.
  - intros Hnone%no_settings_not_has. by apply set_notified_absent.
Qed.

(** After a failed and a successful [update_instagram_id 99 555] the switch
    returns True, and the call that went through is found. *)
Lemma switches_need_settings_row_witness :
  let h : history :=
    [(StartNotifying 99, []);
     (UpdateInstagramId 99 555, [None; Some (Failure 1)]);
     (UpdateInstagramId 99 555, [])] in
  ∃ h1 o fs h2,
    h = h1 ++ (o, fs) :: h2 ∧ creates_settings 99 o ∧
    (perform o (replay h1 empty_database) fs).1.1 = None.
Proof.
  intros h. apply (proj1 (switches_need_settings_row h 99 true)).
  by vm_compute.
Defined.

(** ** Primary keys *)

(** The session ties a loaded object to its row by the primary key, and the
    flush writes the object back with [UPDATE .. WHERE id = pk]; the model
    ties it by the place of the row.  The two agree where the primary keys
    are distinct, and they are after every history. *)
Lemma alter_update_where_id (f : TelegramUser.t → TelegramUser.t)
    (rows : list TelegramUser.t) (i : nat) (r : TelegramUser.t) :
  NoDup (map TelegramUser.id rows) →
  rows !! i = Some r →
  alter f i rows = update_where_id (TelegramUser.id r) f rows.
Proof.
  revert i. induction rows as [|x rows IH]; intros i Hnd Hi; [done|].
  cbn in Hnd. apply NoDup_cons in Hnd as [Hx Hnd].
  destruct i as [|i]; cbn in Hi |- *.
  - injection Hi as ->. rewrite decide_True by done. f_equal.
    clear IH. induction rows as [|y rows IH]; [done|].
    cbn in Hx |- *. apply not_elem_of_cons in Hx as [Hy Hx].
    apply NoDup_cons in Hnd as [_ Hnd].
    rewrite decide_False by done. f_equal. by apply IH.
  - rewrite decide_False.
    + f_equal. by apply IH.
    + intros Heq. apply Hx. rewrite Heq.
      apply list_elem_of_fmap. exists r. split; [done|].
      by eapply list_elem_of_lookup_2.
Qed.

Lemma perform_primary_keys_fresh (o : operation) (d : Database) (fs : list (option fault)) :
  primary_keys_fresh d → primary_keys_fresh (perform o d fs).1.2.
Proof.
  intros [Hnd Hlt].
  pose proof (perform_commits_or_keeps o d fs) as Hcases.
  destruct ((perform o d fs).1.1) as [e|]; rewrite Hcases; [done|].
  clear Hcases. unfold primary_keys_fresh.
  destruct (perform_settings_step o d)
    as [-> ->|u f _ Hf (l1 & r & l2 & Hd & _ & _ & ->)|u r _ _ _ Hr ->];
    [done| |]; cbn [telegram_users telegram_users_next_id].
  - rewrite Hd in Hnd, Hlt. rewrite map_app in Hnd |- *. cbn in Hnd |- *.
    rewrite Hf. split; [done|].
    apply Forall_app in Hlt as [Hl1 [Hr Hl2]%Forall_cons].
    apply Forall_app. split; [done|]. apply Forall_cons. by rewrite Hf.
  - rewrite map_app. cbn. rewrite Hr. split.
    + apply NoDup_app. split_and!; [done| |apply NoDup_singleton].
      intros x (y & -> & Hy)%list_elem_of_fmap Hx%list_elem_of_singleton.
      rewrite Forall_forall in Hlt. specialize (Hlt y Hy). lia.
    + apply Forall_app. split.
      * eapply Forall_impl; [exact Hlt|]. intros y ?. cbn in *. lia.
      * apply Forall_singleton. rewrite Hr. lia.
Qed.

Lemma replay_primary_keys_fresh (h : history) :
  primary_keys_fresh (replay h empty_database).
Proof.
  assert (Hgen : ∀ d, primary_keys_fresh d → primary_keys_fresh (replay h d)).
  { induction h as [|[o fs] h IH]; intros d Hd; [done|].
    cbn [replay]. by apply IH, perform_primary_keys_fresh. }
  apply Hgen. split; constructor.
Qed.

(** After every history, assigning to an attribute of the object [.first()]
    returned changes the rows the UPDATE by primary key changes. *)
Lemma setattr_by_primary_key (h : history) (u : Z)
    (f : TelegramUser.t → TelegramUser.t) (i : nat) (r : TelegramUser.t) :
  let rows := telegram_users (replay h empty_database) in
  list_find (λ r, TelegramUser.telegram_id r = u) rows = Some (i, r) →
  alter f i rows = update_where_id (TelegramUser.id r) f rows.
Proof.
  intros rows (Hi & _)%list_find_Some.
  apply alter_update_where_id; [|done].
  apply replay_primary_keys_fresh.
Qed.

(** ** The settings of a user *)

Section FirstRowValue.
Context {A : Type} (P : A → Prop) `{!∀ x, Decision (P x)}.

(** The row [.first()] gives is the first of the rows [.all()] gives. *)
Lemma list_find_head_filter (l : list A) :
  snd <$> list_find P l = head (filter P l).
Proof.
  induction l as [|x l IH]; [done|].
  rewrite filter_cons. cbn [list_find].
  destruct (decide (P x)); [done|].
  rewrite <-IH. by destruct (list_find P l) as [[i y]|].
Qed.
End FirstRowValue.

Lemma settings_of_head (u : Z) (d : Database) :
  settings_of u d =
  columns <$> head (filter (λ r, TelegramUser.telegram_id r = u) (telegram_users d)).
Proof.
  rewrite <-(list_find_head_filter (λ r, TelegramUser.telegram_id r = u)).
  unfold settings_of. by destruct (list_find _ (telegram_users d)) as [[i y]|].
Qed.

Lemma settings_of_has (u : Z) (d : Database) :
  has_settings u d ↔ is_Some (settings_of u d).
Proof.
  rewrite has_settings_find. unfold settings_of. by rewrite fmap_is_Some.
Qed.

Lemma settings_of_none (u : Z) (d : Database) :
  ¬ has_settings u d ↔ settings_of u d = None.
Proof. by rewrite settings_of_has, eq_None_not_Some. Qed.

(** The settings of [u] after the first row of [u'] was changed. *)
Lemma settings_of_updated (u u' : Z) (f : TelegramUser.t → TelegramUser.t)
    (g : settings → settings) (d d' : Database) :
  keeps_owner f →
  (∀ r, columns (f r) = g (columns r)) →
  first_row_updated u' f d d' →
  settings_of u d' =
    if decide (u' = u) then g <$> settings_of u d else settings_of u d.
Proof.
  intros Hf Hg (l1 & r & l2 & Hd & Hl1 & Hr & ->).
  rewrite !settings_of_head, Hd. cbn [telegram_users].
  rewrite !filter_app, !filter_cons, Hf, Hr.
  destruct (decide (u' = u)) as [->|Hne].
  - rewrite (filter_none (λ r, TelegramUser.telegram_id r = u) l1) by done.
    cbn. by rewrite Hg.
  - done.
Qed.

(** The settings of [u] after a row was added for [u'], who had none. *)
Lemma settings_of_appended (u u' : Z) (r : Z → TelegramUser.t) (d d' : Database) :
  ¬ has_settings u' d →
  (∀ pk, TelegramUser.telegram_id (r pk) = u') →
  row_appended r d d' →
  settings_of u d' =
    if decide (u' = u) then Some (columns (r (telegram_users_next_id d)))
    else settings_of u d.
Proof.
  intros Hnone%no_settings_not_has Hr ->.
  rewrite !settings_of_head. cbn [telegram_users].
  rewrite filter_app, filter_cons, Hr.
  destruct (decide (u' = u)) as [->|Hne].
  - by rewrite (filter_none (λ r, TelegramUser.telegram_id r = u) (telegram_users d)).
  - by rewrite app_nil_r.
Qed.

(** What the lookups and the switches return, read off the settings. *)
Lemma returned_get_instagram_id (u : Z) (d : Database) :
  returned (get_instagram_id u) d = Ok (settings_of u d ≫= λ c, c.1.1).
Proof.
  unfold returned, settings_of. rewrite run_get_instagram_id.
  by destruct (list_find _ (telegram_users d)).
Qed.

Lemma returned_get_language (u : Z) (d : Database) :
  returned (get_language u) d = Ok (settings_of u d ≫= λ c, c.2).
Proof.
  unfold returned, settings_of. rewrite run_get_language.
  by destruct (list_find _ (telegram_users d)).
Qed.

Lemma returned_set_notified (b : bool) (u : Z) (d : Database) :
  returned (if b then start_notifying u else stop_notifying u) d =
    Ok (bool_decide (is_Some (settings_of u d))).
Proof.
  unfold returned, settings_of. rewrite run_set_notified.
  destruct (list_find _ (telegram_users d)) as [o|].
  - by rewrite bool_decide_eq_true_2 by by eexists.
  - by rewrite bool_decide_eq_false_2 by by intros [? ?].
Qed.

(** The settings of every user after an operation, when the engine does not
    fail. *)
Lemma perform_settings_of (o : operation) (d : Database) (u : Z) :
  settings_of u (perform o d []).1.2 = model_settings u o (settings_of u d).
Proof.
  destruct o as [u'|u' a ids|u'|u' a|u'|u'| |u'|u' l]; cbn [perform model_settings];
    rewrite outcome_db; unfold db_after.
  - by rewrite run_get_known_unfollowers.
  - by rewrite run_update_known_unfollowers.
  - by rewrite run_get_instagram_id.
  - destruct (settings_row_or_not u' d) as [Hrow|Hnone].
    + destruct (update_instagram_id_present d u' a Hrow) as (d' & -> & Hupd). cbn [snd].
      rewrite (settings_of_updated u u' (TelegramUser.set_instagram_id (Some a))
                 (λ c, (Some a, c.1.2, c.2)) d d');
        [|by intros ?..|done].
      destruct (decide (u' = u)) as [->|]; [|done].
      apply settings_of_has in Hrow as [[[i n] l] ->]. done.
    + pose proof Hnone as Hnone'. apply no_settings_not_has in Hnone'.
      destruct (update_instagram_id_absent d u' a Hnone') as (d' & -> & Happ). cbn [snd].
      rewrite (settings_of_appended u u'
                 (λ pk, TelegramUser.mk pk u' (Some a) false None)
                 d d' Hnone (λ _, eq_refl) Happ).
      destruct (decide (u' = u)) as [->|]; [|done].
      apply settings_of_none in Hnone as ->. done.
  - destruct (settings_row_or_not u' d) as [Hrow|Hnone].
    + destruct (set_notified_present d u' true Hrow) as (d' & -> & Hupd). cbn [snd].
      by rewrite (settings_of_updated u u' (TelegramUser.set_is_notified true)
                    (λ c, (c.1.1, true, c.2)) d d');
        [|intros ?..|].
    + pose proof Hnone as Hnone'. apply no_settings_not_has in Hnone'.
      rewrite (set_notified_absent d u' true Hnone'). cbn [snd].
      destruct (decide (u' = u)) as [->|]; [|done].
      apply settings_of_none in Hnone as ->. done.
  - destruct (settings_row_or_not u' d) as [Hrow|Hnone].
    + destruct (set_notified_present d u' false Hrow) as (d' & -> & Hupd). cbn [snd].
      by rewrite (settings_of_updated u u' (TelegramUser.set_is_notified false)
                    (λ c, (c.1.1, false, c.2)) d d');
        [|intros ?..|].
    + pose proof Hnone as Hnone'. apply no_settings_not_has in Hnone'.
      rewrite (set_notified_absent d u' false Hnone'). cbn [snd].
      destruct (decide (u' = u)) as [->|]; [|done].
      apply settings_of_none in Hnone as ->. done.
  - by rewrite run_get_notified_telegram_ids.
  - by rewrite run_get_language.
  - destruct (settings_row_or_not u' d) as [Hrow|Hnone].
    + destruct (set_language_present d u' l Hrow) as (d' & -> & Hupd). cbn [snd].
      rewrite (settings_of_updated u u' (TelegramUser.set_language l)
                 (λ c, (c.1.1, c.1.2, l)) d d');
        [|by intros ?..|done].
      destruct (decide (u' = u)) as [->|]; [|done].
      apply settings_of_has in Hrow as [[[i n] l'] ->]. done.
    + pose proof Hnone as Hnone'. apply no_settings_not_has in Hnone'.
      destruct (set_language_absent d u' l Hnone') as (d' & -> & Happ). cbn [snd].
      rewrite (settings_of_appended u u'
                 (λ pk, TelegramUser.mk pk u' None false l)
                 d d' Hnone (λ _, eq_refl) Happ).
      destruct (decide (u' = u)) as [->|]; [|done].
      apply settings_of_none in Hnone as ->. done.
Qed.

(** The database after a call: the one of the call without faults when no
    call to the engine fails, the one before otherwise. *)
Lemma perform_went_through (o : operation) (d : Database) (fs : list (option fault)) :
  (perform o d fs).1.2 = if went_through o fs then (perform o d []).1.2 else d.
Proof. destruct o; fault_cases; done. Qed.

Lemma perform_settings_follow (o : operation) (d : Database)
    (fs : list (option fault)) (u : Z) :
  settings_of u (perform o d fs).1.2 =
    if went_through o fs then model_settings u o (settings_of u d)
    else settings_of u d.
Proof.
  rewrite perform_went_through.
  destruct (went_through o fs); [apply perform_settings_of|done].
Qed.

Lemma replay_settings_follow (h : history) (d : Database) (u : Z) :
  settings_of u (replay h d) = model_replay (model_settings u) h (settings_of u d).
Proof.
  revert d. induction h as [|[o fs] h IH]; intros d; [done|].
  cbn [replay model_replay]. by rewrite IH, perform_settings_follow.
Qed.

Lemma db_after_perform {A} (m : M A) (d : Database) :
  db_after m d = (outcome (call m d [])).1.2.
Proof. by rewrite outcome_db. Qed.

(** Where each user has one row, a row of [u] is the row [.first()] finds. *)
Lemma unique_settings_first (d : Database) (r : TelegramUser.t) :
  unique_settings d → r ∈ telegram_users d →
  settings_of (TelegramUser.telegram_id r) d = Some (columns r).
Proof.
  intros Huniq (l1 & l2 & Hd)%list_elem_of_split.
  unfold unique_settings in Huniq. rewrite Hd, map_app in Huniq.
  apply NoDup_app in Huniq as (_ & Hdisj & _).
  unfold settings_of. rewrite Hd.
  rewrite (list_find_middle (λ x, TelegramUser.telegram_id x = TelegramUser.telegram_id r));
    [done| |done].
  apply Forall_forall. intros x Hx Heq. apply (Hdisj (TelegramUser.telegram_id r)).
  - rewrite <-Heq. apply list_elem_of_fmap. by exists x.
  - apply list_elem_of_here.
Qed.

Lemma settings_of_row (u : Z) (d : Database) (c : settings) :
  settings_of u d = Some c →
  ∃ r, r ∈ telegram_users d ∧ TelegramUser.telegram_id r = u ∧ columns r = c.
Proof.
  unfold settings_of. intros ([i r] & Hfind & ->)%fmap_Some.
  apply list_find_Some in Hfind as (Hi & Hr & _).
  exists r. split_and!; [|done..]. by eapply list_elem_of_lookup_2.
Qed.

Lemma notified_settings (d : Database) (u : Z) (K : gset Z) :
  unique_settings d →
  returned get_notified_telegram_ids d = Ok K →
  u ∈ K ↔ ∃ i l, settings_of u d = Some (i, true, l).
Proof.
  intros Huniq HK. destruct (notified_ids d) as (K' & Hrun & Hmem).
  unfold returned in HK. rewrite Hrun in HK. injection HK as <-.
  rewrite Hmem. split.
  - intros (r & Hr & <- & Hn).
    exists (TelegramUser.instagram_id r), (TelegramUser.language r).
    rewrite (unique_settings_first d r Huniq Hr). unfold columns. by rewrite Hn.
  - intros (i & l & (r & Hr & Hu & Hc)%settings_of_row).
    exists r. split_and!; [done..|]. unfold columns in Hc. congruence.
Qed.

(** X1: one operation, on every database and with every failure of the
    engine, changes the settings of each user as [model_settings] tells when
    it goes through, and leaves them when it fails. *)
Theorem settings_follow_model (o : operation) (d : Database)
    (fs : list (option fault)) (u : Z) :
  settings_of u (perform o d fs).1.2 =
    if went_through o fs then model_settings u o (settings_of u d)
    else settings_of u d.
Proof. apply perform_settings_follow. Qed.

(** X2: after any history on the empty database, what the lookups and the
    switches return for a user is told by the operations of the history that
    went through, in their order: the linked account and the language are
    those of the last write, the switches return True where a writer created
    the settings, and the user is among the notified ones exactly when the
    flag of these settings is set. *)
Theorem lookups_follow_model (h : history) (u : Z) :
  let d := replay h empty_database in
  let s := model_replay (model_settings u) h None in
  returned (get_instagram_id u) d = Ok (s ≫= λ c, c.1.1) ∧
  returned (get_language u) d = Ok (s ≫= λ c, c.2) ∧
  returned (start_notifying u) d = Ok (bool_decide (is_Some s)) ∧
  returned (stop_notifying u) d = Ok (bool_decide (is_Some s)) ∧
  ∃ K : gset Z,
    returned get_notified_telegram_ids d = Ok K ∧
    (u ∈ K ↔ ∃ i l, s = Some (i, true, l)).
Proof.
  intros d s.
  assert (Hs : settings_of u d = s) by apply replay_settings_follow.
  rewrite <-Hs. split_and!.
  - apply returned_get_instagram_id.
  - apply returned_get_language.
  - apply (returned_set_notified true).
  - apply (returned_set_notified false).
  - destruct (notified_ids d) as (K & Hrun & _). exists K.
    assert (HK : returned get_notified_telegram_ids d = Ok K)
      by (unfold returned; by rewrite Hrun).
    split; [done|]. apply notified_settings; [|done].
    apply replay_unique_settings. constructor.
Qed.

(** X3: [update_instagram_id u a] on any database: [get_instagram_id u] then
    returns [a]; the language of [u], and both lookups of every other user,
    are as before, whether the row of [u] was there or is new. *)
Theorem update_instagram_id_read_back (d : Database) (u a u' : Z) :
  let d' := db_after (update_instagram_id u a) d in
  returned (get_instagram_id u') d' =
    (if decide (u' = u) then Ok (Some a) else returned (get_instagram_id u') d) ∧
  returned (get_language u') d' = returned (get_language u') d.
Proof.
  intros d'. rewrite !returned_get_instagram_id, !returned_get_language.
  unfold d'. rewrite (db_after_perform (update_instagram_id u a)).
  change (outcome (call (update_instagram_id u a) d []))
    with (perform (UpdateInstagramId u a) d []).
  rewrite perform_settings_of. cbn [model_settings].
  destruct (decide (u = u')) as [->|Hne].
  - rewrite decide_True by done. by destruct (settings_of u' d) as [[[i n] l]|].
  - by rewrite decide_False by done.
Qed.

(** X4: [set_language u l] on any database: [get_language u] then returns
    [l]; the linked account of [u], and both lookups of every other user,
    are as before. *)
Theorem set_language_read_back (d : Database) (u u' : Z) (l : option string) :
  let d' := db_after (set_language u l) d in
  returned (get_language u') d' =
    (if decide (u' = u) then Ok l else returned (get_language u') d) ∧
  returned (get_instagram_id u') d' = returned (get_instagram_id u') d.
Proof.
  intros d'. rewrite !returned_get_instagram_id, !returned_get_language.
  unfold d'. rewrite (db_after_perform (set_language u l)).
  change (outcome (call (set_language u l) d []))
    with (perform (SetLanguage u l) d []).
  rewrite perform_settings_of. cbn [model_settings].
  destruct (decide (u = u')) as [->|Hne].
  - rewrite decide_True by done. by destruct (settings_of u' d) as [[[i n] l']|].
  - by rewrite decide_False by done.
Qed.

(** X5: the switches change the flag only: after [start_notifying u] or
    [stop_notifying u], on any database, the linked account and the language
    of every user are as before. *)
Theorem switches_keep_lookups (d : Database) (b : bool) (u u' : Z) :
  let d' := db_after (if b then start_notifying u else stop_notifying u) d in
  returned (get_instagram_id u') d' = returned (get_instagram_id u') d ∧
  returned (get_language u') d' = returned (get_language u') d.
Proof.
  intros d'. rewrite !returned_get_instagram_id, !returned_get_language.
  assert (Hs : settings_of u' d' =
               model_settings u' (if b then StartNotifying u else StopNotifying u)
                 (settings_of u' d)).
  { rewrite <-perform_settings_of. unfold d'.
    destruct b; cbn [perform]; by rewrite outcome_db. }
  rewrite Hs. destruct b; cbn [model_settings];
    (destruct (decide (u = u')); [|done]);
    by destruct (settings_of u' d) as [[[i n] l]|].
Qed.

(** ** The known unfollowers of a pair *)

Lemma elem_of_snapshot (u a x : Z) (d : Database) :
  x ∈ snapshot u a d ↔
  ∃ r, r ∈ unfollowers d ∧ of_pair u a r ∧ Unfollower.instagram_unfollower_id r = x.
Proof.
  unfold snapshot. rewrite elem_of_list_to_set, list_elem_of_fmap. split.
  - intros (r & -> & [? ?]%list_elem_of_filter). by exists r.
  - intros (r & ? & ? & <-). exists r. split; [done|].
    by apply list_elem_of_filter.
Qed.

(** [get_known_unfollowers u] is the union of the sets of the pairs of [u]. *)
Lemma known_snapshots (u : Z) (d : Database) :
  ∃ K : gset Z,
    returned (get_known_unfollowers u) d = Ok K ∧
    ∀ x, x ∈ K ↔ ∃ a, x ∈ snapshot u a d.
Proof.
  eexists. unfold returned. rewrite run_get_known_unfollowers. split; [done|].
  intros x. rewrite elem_of_list_to_set, list_elem_of_fmap. split.
  - intros (r & -> & [Hu Hr]%list_elem_of_filter).
    exists (Unfollower.instagram_author_id r). apply elem_of_snapshot.
    by exists r.
  - intros (a & (r & Hr & [Hu _] & <-)%elem_of_snapshot).
    exists r. split; [done|]. by apply list_elem_of_filter.
Qed.

(** The set of each pair after a replacement. *)
Lemma snapshot_update (u a : Z) (ids : gset Z) (w b : Z) (d : Database) :
  snapshot w b (db_after (update_known_unfollowers u a ids) d) =
    if decide (u = w ∧ a = b) then ids else snapshot w b d.
Proof.
  unfold db_after. rewrite run_update_known_unfollowers.
  unfold snapshot. cbn [snd unfollowers]. rewrite filter_app.
  destruct (decide (u = w ∧ a = b)) as [[-> ->]|Hne].
  - rewrite filter_not_filter, app_nil_l.
    rewrite (filter_all (of_pair w b)) by apply assign_ids_of_pair.
    rewrite assign_ids_unfollower_ids. apply list_to_set_elements_L.
  - rewrite (filter_none (of_pair w b) (assign_ids _ _)), app_nil_r.
    + f_equal. f_equal. rewrite list_filter_filter. apply list_filter_iff.
      intros r. unfold of_pair. split; [by intros [? _]|].
      intros [Hw Hb]. split; [done|]. intros [Hu Ha].
      apply Hne. by rewrite <-Hu, <-Ha.
    + eapply Forall_impl; [apply assign_ids_of_pair|].
      intros r [Hu Ha] [Hw Hb]. apply Hne. by rewrite <-Hu, <-Ha.
Qed.

(** Each table has its writers: on every database and with every failure
    of the engine, the operations that do not write a table leave its rows
    and its counter as they were. *)
Lemma perform_footprint (o : operation) (d : Database) (fs : list (option fault)) :
  (if writes_unfollowers o then True
   else unfollowers (perform o d fs).1.2 = unfollowers d ∧
        unfollowers_next_id (perform o d fs).1.2 = unfollowers_next_id d) ∧
  (if writes_settings o then True
   else telegram_users (perform o d fs).1.2 = telegram_users d ∧
        telegram_users_next_id (perform o d fs).1.2 = telegram_users_next_id d).
Proof. destruct o; fault_cases; done. Qed.

Lemma perform_snapshot (o : operation) (d : Database) (w b : Z) :
  snapshot w b (perform o d []).1.2 = model_snapshot w b o (snapshot w b d).
Proof.
  destruct (writes_unfollowers o) eqn:Hw.
  - destruct o; try discriminate. cbn [perform model_snapshot].
    rewrite outcome_db. apply snapshot_update.
  - pose proof (perform_footprint o d []) as [Hunf _]. rewrite Hw in Hunf.
    destruct Hunf as [Hunf _]. unfold snapshot. rewrite Hunf.
    by destruct o.
Qed.

Lemma replay_snapshot_follow (h : history) (d : Database) (w b : Z) :
  snapshot w b (replay h d) = model_replay (model_snapshot w b) h (snapshot w b d).
Proof.
  revert d. induction h as [|[o fs] h IH]; intros d; [done|].
  cbn [replay model_replay]. rewrite IH, perform_went_through.
  destruct (went_through o fs); [by rewrite perform_snapshot|done].
Qed.

(** X6: each table has its writers.  On every database and with every
    failure of the engine, only [update_known_unfollowers] changes the table
    of the unfollowers, and only the two row-creating writers and the two
    switches change the table of the settings; so the four lookups change
    nothing. *)
Theorem tables_footprint (o : operation) (d : Database) (fs : list (option fault)) :
  (if writes_unfollowers o then True
   else unfollowers (perform o d fs).1.2 = unfollowers d ∧
        unfollowers_next_id (perform o d fs).1.2 = unfollowers_next_id d) ∧
  (if writes_settings o then True
   else telegram_users (perform o d fs).1.2 = telegram_users d ∧
        telegram_users_next_id (perform o d fs).1.2 = telegram_users_next_id d) ∧
  (if writes_unfollowers o || writes_settings o then True
   else (perform o d fs).1.2 = d).
Proof.
  pose proof (perform_footprint o d fs) as [Hunf Hset].
  split_and!; [done..|].
  destruct (writes_unfollowers o), (writes_settings o); cbn; [done..|].
  destruct Hunf as [? ?], Hset as [? ?].
  destruct (perform o d fs).1.2, d. cbn in *. congruence.
Qed.

(** X7: what [get_known_unfollowers] returns after a replacement: for the
    user of the pair, the new set together with the ids of his other
    accounts; for every other user, what it returned before. *)
Theorem get_known_after_update (d : Database) (u a : Z) (ids : gset Z) (w : Z) :
  ∃ K : gset Z,
    returned (get_known_unfollowers w)
      (db_after (update_known_unfollowers u a ids) d) = Ok K ∧
    ∀ x, x ∈ K ↔
         (w = u ∧ x ∈ ids) ∨
         ∃ r, r ∈ unfollowers d ∧ Unfollower.telegram_author_id r = w ∧
              ¬ of_pair u a r ∧ Unfollower.instagram_unfollower_id r = x.
Proof.
  destruct (known_snapshots w (db_after (update_known_unfollowers u a ids) d))
    as (K & HK & Hmem).
  exists K. split; [done|]. intros x. rewrite Hmem. split.
  - intros (b & Hx). rewrite snapshot_update in Hx.
    destruct (decide (u = w ∧ a = b)) as [[-> ->]|Hne]; [by left|].
    right. apply elem_of_snapshot in Hx as (r & Hr & [Hw Hb] & Hid).
    exists r. split_and!; [done..| |done]. intros [? ?]. apply Hne. by subst.
  - intros [[-> Hx]|(r & Hr & Hw & Hne & Hid)].
    + exists a. rewrite snapshot_update. by rewrite decide_True.
    + exists (Unfollower.instagram_author_id r). rewrite snapshot_update.
      rewrite decide_False.
      * apply elem_of_snapshot. by exists r.
      * intros [-> ->]. by apply Hne.
Qed.

(** X8: after any history on the empty database, [get_known_unfollowers u]
    returns the union, over the accounts, of the set given by the last
    replacement for the pair that went through. *)
Theorem known_unfollowers_follow_model (h : history) (u : Z) :
  ∃ K : gset Z,
    returned (get_known_unfollowers u) (replay h empty_database) = Ok K ∧
    ∀ x, x ∈ K ↔ ∃ a, x ∈ model_replay (model_snapshot u a) h ∅.
Proof.
  destruct (known_snapshots u (replay h empty_database)) as (K & HK & Hmem).
  exists K. split; [done|]. intros x. rewrite Hmem.
  by setoid_rewrite replay_snapshot_follow.
Qed.

(** X9: replacements for two different pairs can be made in either order:
    every pair has the same set, every user gets the same set from
    [get_known_unfollowers], and the settings are the same. *)
Theorem updates_of_different_pairs_commute (d : Database) (u1 a1 u2 a2 : Z)
    (ids1 ids2 : gset Z) (Hne : ¬ (u1 = u2 ∧ a1 = a2)) :
  let d12 := db_after (update_known_unfollowers u2 a2 ids2)
               (db_after (update_known_unfollowers u1 a1 ids1) d) in
  let d21 := db_after (update_known_unfollowers u1 a1 ids1)
               (db_after (update_known_unfollowers u2 a2 ids2) d) in
  (∀ w b, snapshot w b d12 = snapshot w b d21) ∧
  (∀ w, returned (get_known_unfollowers w) d12 =
        returned (get_known_unfollowers w) d21) ∧
  telegram_users d12 = telegram_users d21.
Proof.
  intros d12 d21.
  assert (Hsnap : ∀ w b, snapshot w b d12 = snapshot w b d21).
  { intros w b. unfold d12, d21. rewrite !snapshot_update.
    destruct (decide (u2 = w ∧ a2 = b)) as [[-> ->]|];
      destruct (decide (u1 = w ∧ a1 = b)) as [[-> ->]|]; [|done..].
    by destruct Hne. }
  split_and!; [done| |].
  - intros w.
    destruct (known_snapshots w d12) as (K12 & -> & H12).
    destruct (known_snapshots w d21) as (K21 & -> & H21).
    f_equal. apply set_eq. intros x. rewrite H12, H21.
    by setoid_rewrite Hsnap.
  - unfold d12, d21, db_after. by rewrite !run_update_known_unfollowers.
Qed.

Lemma updates_of_different_pairs_commute_witness :
  let d := three_users in
  let d12 := db_after (update_known_unfollowers 2 21 {[8]})
               (db_after (update_known_unfollowers 2 20 {[7]}) d) in
  let d21 := db_after (update_known_unfollowers 2 20 {[7]})
               (db_after (update_known_unfollowers 2 21 {[8]}) d) in
  returned (get_known_unfollowers 2) d12 = returned (get_known_unfollowers 2) d21.
Proof.
  intros d d12 d21.
  apply (updates_of_different_pairs_commute d 2 20 2 21 {[7]} {[8]}).
  intros [_ Heq]. discriminate Heq.
Defined.

(** ** Writing the same column again *)

Lemma db_after_update_instagram_id (d : Database) (u a : Z) :
  db_after (update_instagram_id u a) d =
    write_first u (TelegramUser.set_instagram_id (Some a))
      (Some (TelegramUser.init u (Some a))) d.
Proof.
  unfold db_after, write_first. rewrite run_update_instagram_id.
  by destruct (list_find _ (telegram_users d)).
Qed.

Lemma db_after_set_language (d : Database) (u : Z) (l : option string) :
  db_after (set_language u l) d =
    write_first u (TelegramUser.set_language l)
      (Some (λ pk, TelegramUser.set_language l (TelegramUser.init u None pk))) d.
Proof.
  unfold db_after, write_first. rewrite run_set_language.
  by destruct (list_find _ (telegram_users d)).
Qed.

Lemma db_after_set_notified (d : Database) (u : Z) (b : bool) :
  db_after (if b then start_notifying u else stop_notifying u) d =
    write_first u (TelegramUser.set_is_notified b) None d.
Proof.
  unfold db_after, write_first. rewrite run_set_notified.
  by destruct (list_find _ (telegram_users d)).
Qed.

(** A second write that overrides what the first one wrote. *)
Lemma write_first_twice (u : Z) (f g : TelegramUser.t → TelegramUser.t)
    (newf newg : option (Z → TelegramUser.t)) (d : Database) :
  keeps_owner f →
  (∀ r, g (f r) = g r) →
  match newf with
  | Some rf => ∃ rg, newg = Some rg ∧
                     (∀ pk, TelegramUser.telegram_id (rf pk) = u) ∧
                     (∀ pk, g (rf pk) = rg pk)
  | None => True
  end →
  write_first u g newg (write_first u f newf d) = write_first u g newg d.
Proof.
  intros Hf Hgf Hnew. unfold write_first at 2 3.
  destruct (list_find _ (telegram_users d)) as [[i r]|] eqn:Hfind.
  - apply (list_find_split (λ r, TelegramUser.telegram_id r = u))
      in Hfind as (l1 & l2 & Hd & <- & Hl1 & Hr).
    cbn [fst]. rewrite Hd, !alter_middle. unfold write_first.
    cbn [telegram_users unfollowers unfollowers_next_id telegram_users_next_id].
    rewrite (list_find_middle (λ r, TelegramUser.telegram_id r = u)
               l1 l2 (f r) Hl1 (eq_trans (Hf r) Hr)).
    cbn [fst]. by rewrite alter_middle, Hgf.
  - destruct newf as [rf|]; [|by unfold write_first; rewrite Hfind].
    destruct Hnew as (rg & -> & Hrf & Hg). unfold write_first.
    cbn [telegram_users unfollowers unfollowers_next_id telegram_users_next_id].
    apply (list_find_None (λ r, TelegramUser.telegram_id r = u)) in Hfind.
    rewrite (list_find_middle (λ r, TelegramUser.telegram_id r = u)) by done.
    cbn [fst]. by rewrite alter_middle, Hg.
Qed.

(** X10: the last write wins.  On every database, writing the linked account,
    the language or the notification flag of a user a second time leaves the
    database the second write alone would leave, whether the first write
    created the row or not; so each of these writers, called twice with the
    same value, changes nothing the second time. *)
Theorem last_write_wins (d : Database) (u : Z) :
  (∀ a b, db_after (update_instagram_id u b) (db_after (update_instagram_id u a) d) =
          db_after (update_instagram_id u b) d) ∧
  (∀ l l', db_after (set_language u l') (db_after (set_language u l) d) =
           db_after (set_language u l') d) ∧
  (∀ b b' : bool,
     db_after (if b' then start_notifying u else stop_notifying u)
       (db_after (if b then start_notifying u else stop_notifying u) d) =
     db_after (if b' then start_notifying u else stop_notifying u) d).
Proof.
  split_and!.
  - intros a b. rewrite !db_after_update_instagram_id.
    apply write_first_twice; [by intros ?..|].
    eexists. split; [done|]. by split; intros ?.
  - intros l l'. rewrite !db_after_set_language.
    apply write_first_twice; [by intros ?..|].
    eexists. split; [done|]. by split; intros ?.
  - intros b b'. rewrite !db_after_set_notified.
    by apply write_first_twice; [intros ?..|].
Qed.

(** ** The notified users *)

(** X11: where [u] has settings, [start_notifying u] adds [u] to the set
    [get_notified_telegram_ids] returns and changes nothing else in it. *)
Theorem start_notifying_adds (d : Database) (u : Z) (Hrow : has_settings u d) :
  ∃ K K' : gset Z,
    returned get_notified_telegram_ids d = Ok K ∧
    returned get_notified_telegram_ids (db_after (start_notifying u) d) = Ok K' ∧
    K' = K ∪ {[u]}.
Proof.
  destruct (set_notified_present d u true Hrow) as (d' & Hrun & Hupd).
  unfold db_after. rewrite Hrun. cbn [snd].
  destruct (notified_ids d) as (K & HK & Hmem).
  destruct (notified_ids d') as (K' & HK' & Hmem').
  exists K, K'. unfold returned. rewrite HK, HK'. split_and!; [done..|].
  destruct Hupd as (l1 & r & l2 & Hd & _ & Hr & ->).
  apply set_eq. intros x.
  rewrite elem_of_union, elem_of_singleton, Hmem, Hmem', Hd.
  cbn [telegram_users]. split.
  - intros (r' & Hr' & Hx & Hn).
    apply elem_of_app in Hr' as [Hr'|[->|Hr']%elem_of_cons].
    + left. exists r'. split_and!; [|done..]. apply elem_of_app. by left.
    + right. by rewrite <-Hx.
    + left. exists r'. split_and!; [|done..].
      apply elem_of_app. right. by apply list_elem_of_further.
  - intros [(r' & Hr' & Hx & Hn)| ->].
    + apply elem_of_app in Hr' as [Hr'|[->|Hr']%elem_of_cons].
      * exists r'. split_and!; [|done..]. apply elem_of_app. by left.
      * exists (TelegramUser.set_is_notified true r). split_and!; [|done..].
        apply elem_of_app. right. apply list_elem_of_here.
      * exists r'. split_and!; [|done..].
        apply elem_of_app. right. by apply list_elem_of_further.
    + exists (TelegramUser.set_is_notified true r). split_and!; [|done..].
      apply elem_of_app. right. apply list_elem_of_here.
Qed.

Lemma start_notifying_adds_witness :
  ∃ K K' : gset Z,
    returned get_notified_telegram_ids three_users = Ok K ∧
    returned get_notified_telegram_ids (db_after (start_notifying 3) three_users) = Ok K' ∧
    K' = K ∪ {[3]}.
Proof.
  apply (start_notifying_adds three_users 3).
  exists (TelegramUser.mk 3 3 (Some 30) false None).
  split; [|done]. vm_compute. do 2 apply list_elem_of_further. apply list_elem_of_here.
Defined.

(** X12: where every user has one row, [stop_notifying u] takes [u] out of
    the set [get_notified_telegram_ids] returns and changes nothing else in
    it. *)
Theorem stop_notifying_removes (d : Database) (u : Z) (Huniq : unique_settings d) :
  ∃ K K' : gset Z,
    returned get_notified_telegram_ids d = Ok K ∧
    returned get_notified_telegram_ids (db_after (stop_notifying u) d) = Ok K' ∧
    K' = K ∖ {[u]}.
Proof.
  destruct (notified_ids d) as (K & HK & Hmem).
  destruct (settings_row_or_not u d) as [Hrow|Hnone].
  - destruct (set_notified_present d u false Hrow) as (d' & Hrun & Hupd).
    unfold db_after. rewrite Hrun. cbn [snd].
    destruct (notified_ids d') as (K' & HK' & Hmem').
    exists K, K'. unfold returned. rewrite HK, HK'. split_and!; [done..|].
    destruct Hupd as (l1 & r & l2 & Hd & Hl1 & Hr & ->).
    unfold unique_settings in Huniq. rewrite Hd, map_app in Huniq. cbn in Huniq.
    apply NoDup_app in Huniq as (_ & _ & [Hl2 _]%NoDup_cons).
    rewrite Forall_forall in Hl1.
    assert (Hl2' : ∀ y, y ∈ l2 → TelegramUser.telegram_id y ≠ u).
    { intros y Hy Heq. apply Hl2. rewrite Hr, <-Heq.
      apply list_elem_of_fmap. by exists y. }
    apply set_eq. intros x.
    rewrite elem_of_difference, elem_of_singleton, Hmem, Hmem', Hd.
    cbn [telegram_users]. split.
    + intros (r' & Hr' & Hx & Hn).
      apply elem_of_app in Hr' as [Hr'|[->|Hr']%elem_of_cons].
      * split; [|rewrite <-Hx; by apply Hl1].
        exists r'. split_and!; [|done..]. apply elem_of_app. by left.
      * done.
      * split; [|rewrite <-Hx; by apply Hl2'].
        exists r'. split_and!; [|done..].
        apply elem_of_app. right. by apply list_elem_of_further.
    + intros [(r' & Hr' & Hx & Hn) Hxu].
      apply elem_of_app in Hr' as [Hr'|[->|Hr']%elem_of_cons].
      * exists r'. split_and!; [|done..]. apply elem_of_app. by left.
      * congruence.
      * exists r'. split_and!; [|done..].
        apply elem_of_app. right. by apply list_elem_of_further.
  - pose proof Hnone as Hnone'. apply no_settings_not_has in Hnone'.
    unfold db_after. rewrite (set_notified_absent d u false Hnone'). cbn [snd].
    exists K, K. unfold returned. rewrite HK. split_and!; [done..|].
    apply set_eq. intros x. rewrite elem_of_difference, elem_of_singleton.
    split; [|by intros [? _]]. intros Hx. split; [done|]. intros ->.
    apply Hmem in Hx as (r & Hr & Hu & _). apply Hnone. by exists r.
Qed.

Lemma stop_notifying_removes_witness :
  ∃ K K' : gset Z,
    returned get_notified_telegram_ids three_users = Ok K ∧
    returned get_notified_telegram_ids (db_after (stop_notifying 2) three_users) = Ok K' ∧
    K' = K ∖ {[2]}.
Proof.
  apply (stop_notifying_removes three_users 2).
  unfold unique_settings. apply (bool_decide_unpack _). by vm_compute.
Defined.

(** ** Rows are kept *)

Lemma replay_owners_prefix (h : history) (d : Database) :
  owners d `prefix_of` owners (replay h d).
Proof.
  revert d. induction h as [|[o fs] h IH]; intros d; [done|].
  cbn [replay]. etrans; [|apply IH].
  destruct (perform_owners o d fs) as [->|(u & _ & _ & _ & ->)]; [done|].
  by apply prefix_app_r.
Qed.

(** X13: no operation removes a settings row or gives it to another user.
    After any calls, with any failures of the engine, the rows a database
    had are at their places with their owners, new rows come after them; so
    a switch that returned True for a user returns True ever after. *)
Theorem settings_rows_persist (h : history) (d : Database) :
  owners d `prefix_of` owners (replay h d) ∧
  (∀ (u : Z) (b : bool),
     returned (if b then start_notifying u else stop_notifying u) d = Ok true →
     returned (if b then start_notifying u else stop_notifying u) (replay h d) = Ok true).
Proof.
  pose proof (replay_owners_prefix h d) as Hpre. split; [done|].
  intros u b. rewrite !returned_set_notified. intros [= Hb].
  f_equal. apply bool_decide_eq_true in Hb. apply bool_decide_eq_true.
  apply settings_of_has, has_settings_owner.
  apply settings_of_has, has_settings_owner in Hb.
  destruct Hpre as [k ->]. apply elem_of_app. by left.
Qed.

Lemma settings_rows_persist_witness :
  let h : history :=
    [(SetLanguage 7 None, []); (UpdateKnownUnfollowers 2 20 ∅, [Some Interrupted]);
     (StopNotifying 2, [])] in
  returned (start_notifying 2) (replay h three_users) = Ok true.
Proof.
  intros h. apply (proj2 (settings_rows_persist h three_users) 2 true).
  by vm_compute.
Defined.

(** ** Who is notified *)

(** The flag is set in the told settings only by a [StartNotifying] that
    went through on settings that were there. *)
Lemma model_notified_by_start (u : Z) (h : history) (s : option settings)
    (i : option Z) (l : option string) :
  model_replay (model_settings u) h s = Some (i, true, l) →
  (∃ i' l', s = Some (i', true, l')) ∨
  ∃ h1 fs h2,
    h = h1 ++ (StartNotifying u, fs) :: h2 ∧
    went_through (StartNotifying u) fs = true ∧
    is_Some (model_replay (model_settings u) h1 s).
Proof.
  revert s. induction h as [|[o fs] h IH]; intros s Hs.
  { left. by exists i, l. }
  cbn [model_replay] in Hs. apply IH in Hs as [(i' & l' & Hs)|Hsplit].
  - destruct (went_through o fs) eqn:Hwent; [|left; by exists i', l'].
    destruct o as [u'|u' a ids|u'|u' a|u'|u'| |u'|u' l0]; cbn [model_settings] in Hs;
      try (left; by exists i', l').
    + destruct (decide (u' = u)); [|left; by exists i', l'].
      destruct s as [[[i0 n0] l0]|]; cbn in Hs; [|by simplify_eq].
      left. exists i0, l0. by simplify_eq.
    + destruct (decide (u' = u)) as [->|]; [|left; by exists i', l'].
      destruct s as [c|]; [|done].
      right. by exists [], fs, h.
    + destruct (decide (u' = u)); [|left; by exists i', l'].
      destruct s as [c|]; cbn in Hs; by simplify_eq.
    + destruct (decide (u' = u)); [|left; by exists i', l'].
      destruct s as [[[i0 n0] l1]|]; cbn in Hs; [|by simplify_eq].
      left. exists i0, l1. by simplify_eq.
  - right. destruct Hsplit as (h1 & fs' & h2 & -> & Hwent & Hsome).
    by exists ((o, fs) :: h1), fs', h2.
Qed.

(** X14: a user is among the notified ones only by asking.  After any history
    on the empty database, with any failures of the engine, every user that
    [get_notified_telegram_ids] returns has called [start_notifying] at a
    time when he had settings, and that call went through. *)
Theorem notified_only_by_start (h : history) (u : Z) (K : gset Z)
    (HK : returned get_notified_telegram_ids (replay h empty_database) = Ok K)
    (Hu : u ∈ K) :
  ∃ h1 fs h2,
    h = h1 ++ (StartNotifying u, fs) :: h2 ∧
    went_through (StartNotifying u) fs = true ∧
    has_settings u (replay h1 empty_database).
Proof.
  assert (Huniq : unique_settings (replay h empty_database))
    by (apply replay_unique_settings; constructor).
  apply (notified_settings _ u K Huniq HK) in Hu as (i & l & Hs).
  rewrite replay_settings_follow in Hs.
  apply model_notified_by_start in Hs as [(i' & l' & Hnone)|Hsplit].
  { discriminate Hnone. }
  destruct Hsplit as (h1 & fs & h2 & Hh & Hwent & Hsome).
  exists h1, fs, h2. split_and!; [done..|].
  apply settings_of_has. by rewrite replay_settings_follow.
Qed.

Lemma notified_only_by_start_witness :
  let h : history :=
    [(StartNotifying 5, []); (SetLanguage 5 None, []);
     (StartNotifying 5, [Some (Failure 9)]); (StartNotifying 5, [])] in
  ∃ h1 fs h2,
    h = h1 ++ (StartNotifying 5, fs) :: h2 ∧
    went_through (StartNotifying 5) fs = true ∧
    has_settings 5 (replay h1 empty_database).
Proof.
  intros h. apply (notified_only_by_start h 5 {[5]}); [by vm_compute|].
  by apply elem_of_singleton.
Defined.

(** ** Any block in a session scope *)

(** X15: [session_scope] around any block that works on the open transaction.
    When the block and the commit go through, the committed database is the
    one the block left pending, and the value of the block is returned; when
    either raises, the exception is passed on and the committed database is
    the one before.  On both paths the session calls are [Open], then
    [Commit] or (for an [Exception]) [Rollback], then [Close], and nothing is
    left pending. *)
Theorem session_scope_any_block {A} (body : M A) (σ : Session)
    (Hbody : transactional body) :
  let '(r, σ') := session_scope body σ in
  pending σ' = bound σ' ∧
  match body (Session_new σ) with
  | (Ok a, σ1) =>
      match faults σ1 with
      | Some f :: _ =>
          r = Raise (exn_of_fault f) ∧ bound σ' = bound σ ∧
          trace σ' = trace σ ++ Open ::
            (if is_Exception (exn_of_fault f) then [Rollback; Close] else [Close])
      | _ =>
          r = Ok a ∧ bound σ' = pending σ1 ∧
          trace σ' = trace σ ++ [Open; Commit; Close]
      end
  | (Raise e, σ1) =>
      r = Raise e ∧ bound σ' = bound σ ∧
      trace σ' = trace σ ++ Open ::
        (if is_Exception e then [Rollback; Close] else [Close])
  end.
Proof.
  destruct (Hbody (Session_new σ)) as [Hbound Htrace].
  cbn in Hbound, Htrace.
  cbv [session_scope try_finally try_except bind].
  destruct (body (Session_new σ)) as [[a|e] σ1]; cbn [snd] in Hbound, Htrace.
  - cbv [commit bind execute ret].
    destruct (faults σ1) as [|[f|] fs];
      cbv [rollback raise bind close log]; cbn [bound pending faults trace];
      [|destruct (is_Exception (exn_of_fault f))|];
      cbn [bound pending faults trace]; rewrite ?Hbound, ?Htrace;
      by rewrite <-?app_assoc.
  - cbv [rollback raise bind close log].
    destruct (is_Exception e);
      cbn [bound pending faults trace]; rewrite ?Hbound, ?Htrace;
      by rewrite <-?app_assoc.
Qed.

(** The deletion of the rows of user 2, alone in a scope. *)
Lemma session_scope_any_block_witness :
  let body := Unfollower_delete (λ r, Unfollower.telegram_author_id r = 2) in
  let σ := mkSession three_users three_users [None; Some (Failure 4)] [] in
  let '(r, σ') := session_scope body σ in
  pending σ' = bound σ' ∧ r = Raise (SQLAlchemyError 4) ∧ bound σ' = three_users.
Proof.
  intros body σ.
  assert (Hbody : transactional body).
  { intros σ0. unfold body, Unfollower_delete, bind, execute, get_pending, set_pending.
    by destruct (faults σ0) as [|[f|] fs]. }
  pose proof (session_scope_any_block body σ Hbody) as H.
  destruct (session_scope body σ) as [r σ'].
  vm_compute in H |- *. by destruct H as (Hp & Hr & Hb & _).
Defined.

(** ** What a call returns when the engine fails *)

(** X16: under any failures of the engine, each of the nine methods raises
    the exception of the first failing call to the engine, or where none
    fails returns what it returns without failures; the AttributeError of
    [get_instagram_id] for an absent row never reaches the caller. *)
Theorem returned_under_failures (d : Database) (fs : list (option fault)) :
  (∀ u, (call (get_known_unfollowers u) d fs).1.1 =
        value_or_fault (GetKnownUnfollowers u) fs (returned (get_known_unfollowers u) d)) ∧
  (∀ u a ids, (call (update_known_unfollowers u a ids) d fs).1.1 =
        value_or_fault (UpdateKnownUnfollowers u a ids) fs (Ok ())) ∧
  (∀ u, (call (get_instagram_id u) d fs).1.1 =
        value_or_fault (GetInstagramId u) fs (returned (get_instagram_id u) d)) ∧
  (∀ u a, (call (update_instagram_id u a) d fs).1.1 =
        value_or_fault (UpdateInstagramId u a) fs (Ok ())) ∧
  (∀ u, (call (start_notifying u) d fs).1.1 =
        value_or_fault (StartNotifying u) fs (returned (start_notifying u) d)) ∧
  (∀ u, (call (stop_notifying u) d fs).1.1 =
        value_or_fault (StopNotifying u) fs (returned (stop_notifying u) d)) ∧
  (call get_notified_telegram_ids d fs).1.1 =
        value_or_fault GetNotifiedTelegramIds fs (returned get_notified_telegram_ids d) ∧
  (∀ u, (call (get_language u) d fs).1.1 =
        value_or_fault (GetLanguage u) fs (returned (get_language u) d)) ∧
  (∀ u l, (call (set_language u l) d fs).1.1 =
        value_or_fault (SetLanguage u l) fs (Ok ())).
Proof.
  split_and!; intros; fault_cases; done.
Qed.

(** ** Replacing the set of a pair again *)

(** X17: a replacement overrides the one before it for the same pair: the
    stored records, and so the sets [get_known_unfollowers] returns, are
    those the second replacement alone gives. *)
Theorem replacement_overrides (d : Database) (u a : Z) (ids1 ids2 : gset Z) :
  let d12 := db_after (update_known_unfollowers u a ids2)
               (db_after (update_known_unfollowers u a ids1) d) in
  let d2 := db_after (update_known_unfollowers u a ids2) d in
  stored d12 = stored d2 ∧
  (∀ w, returned (get_known_unfollowers w) d12 =
        returned (get_known_unfollowers w) d2).
Proof.
  intros d12 d2.
  assert (Hrec : map UnfollowerRecord (unfollowers d12) =
                 map UnfollowerRecord (unfollowers d2)).
  { unfold d12, d2, db_after. rewrite !run_update_known_unfollowers.
    cbn [snd unfollowers unfollowers_next_id].
    rewrite replaced_others, !map_app. by rewrite !assign_ids_records. }
  split.
  - unfold stored. rewrite Hrec.
    unfold d12, d2, db_after. by rewrite !run_update_known_unfollowers.
  - intros w. unfold returned. rewrite !run_get_known_unfollowers.
    cbn [fst]. by rewrite !known_from_records, Hrec.
Qed.
